(** * CinemaAbyss: the Strangler Fig proxy and the events service

    A shallow embedding of
      - [src/microservices/proxy/main.py]  (module [Proxy]), and
      - [src/microservices/events/main.py] (module [Events]),
    preceded by the fragment of the Python runtime both rely on
    (module [Py]): exceptions, [str] operations, [int()], printf-style
    [%] with an empty argument tuple, and insertion-ordered dictionaries.

    Text is modelled by [string]: one [ascii] is one code point in
    0..255, which is what [http.server] produces when it decodes the
    request line and the headers as ISO-8859-1.  Bytes are [list byte].

    Effects are explicit: a computation is a function from a world to
    a result (a value or a raised exception) and a world.  The world
    of the proxy holds the random draws, the lines printed, the request
    line and the bytes the client sent, what a read and a write on the
    connection meet, the behaviour of the backend, the requests made
    to it, and the calls made on the client connection.  The world of
    the events service holds the identifiers drawn, the clock, the
    behaviour of the broker, the records handed to the producer, and
    the log.

    The modules after the embedding state and prove:
      - [Routing]: where [_determine_target] sends a path;
      - [Bridge]: which headers a relay forwards and sends back, and
        what happens when the relay fails;
      - [Handler]: that routing is total and ignores the method;
      - [EventViews]: what the three event views answer. *)

From Stdlib Require Import ZArith List String Ascii Bool Lia.
From Stdlib Require Import Strings.Byte Decimal DecimalString PrimFloat.
Import ListNotations.

#[local] Open Scope string_scope.
#[local] Open Scope Z_scope.

(* ================================================================== *)
(** * The Python fragment *)
(* ================================================================== *)

Module Py.

(** ** Exceptions and the effect monad *)

(** The exception classes the two programs distinguish in their
    [except] clauses, plus the builtin ones their own statements can
    raise.  Every class here derives from [Exception]. *)
Inductive exc_class : Type :=
| RequestException
| KafkaError
| ValueError
| TypeError
| KeyError
| OverflowError
| MemoryError
| OSError
| OtherException.

Record exc : Type := Exc { exc_type : exc_class; exc_str : string }.

Inductive result (A : Type) : Type :=
| Ok (a : A)
| Raise (e : exc).
Arguments Ok {A} a.
Arguments Raise {A} e.

(** A computation over a world [W]: it returns or raises, and leaves a
    world behind in both cases. *)
Definition M (W A : Type) : Type := W -> result A * W.

Definition ret {W A} (a : A) : M W A := fun w => (Ok a, w).

Definition raise {W A} (e : exc) : M W A := fun w => (Raise e, w).

Definition bind {W A B} (c : M W A) (k : A -> M W B) : M W B :=
  fun w =>
    match c w with
    | (Ok a, w') => k a w'
    | (Raise e, w') => (Raise e, w')
    end.

(** [try: c  except ... as e: h e].  An exception raised by the handler
    itself is not caught again. *)
Definition try_except {W A} (c : M W A) (h : exc -> M W A) : M W A :=
  fun w =>
    match c w with
    | (Ok a, w') => (Ok a, w')
    | (Raise e, w') => h e w'
    end.

Definition lift {W A} (r : result A) : M W A := fun w => (r, w).

Definition is_class (c : exc_class) (e : exc) : bool :=
  match c, exc_type e with
  | RequestException, RequestException => true
  | KafkaError, KafkaError => true
  | ValueError, ValueError => true
  | TypeError, TypeError => true
  | KeyError, KeyError => true
  | OverflowError, OverflowError => true
  | MemoryError, MemoryError => true
  | OSError, OSError => true
  | OtherException, OtherException => true
  | _, _ => false
  end.

(** ** Characters *)

Definition code (c : ascii) : N := N_of_ascii c.

Definition chr (n : N) : ascii := ascii_of_N n.

Definition dquote : ascii := Eval cbv in ascii_of_nat 34.
Definition squote : ascii := Eval cbv in ascii_of_nat 39.
Definition backslash : ascii := Eval cbv in ascii_of_nat 92.
Definition percent : ascii := Eval cbv in ascii_of_nat 37.

Definition between (lo hi : N) (c : ascii) : bool :=
  (lo <=? code c)%N && (code c <=? hi)%N.

(** [str.lower()] on one code point below 256: A-Z, and the Latin-1
    capitals U+00C0..U+00DE except the multiplication sign U+00D7. *)
Definition lower_char (c : ascii) : ascii :=
  if between 65 90 c then chr (code c + 32)
  else if between 192 222 c && negb (code c =? 215)%N then chr (code c + 32)
  else c.

Fixpoint lower (s : string) : string :=
  match s with
  | EmptyString => EmptyString
  | String c t => String (lower_char c) (lower t)
  end.

(** [s.startswith(p)] *)
Definition startswith (s p : string) : bool := String.prefix p s.

(** [x in l] for a list of strings. *)
Definition in_list (x : string) (l : list string) : bool :=
  existsb (String.eqb x) l.

(** Truth value of a [str]. *)
Definition truthy_str (s : string) : bool :=
  match s with EmptyString => false | _ => true end.

(** ** [str(n)] for an [int] *)

Definition str_of_Z (z : Z) : string := NilZero.string_of_int (Z.to_int z).

(** ** [fmt % ()]

    Printf-style formatting with the empty tuple.  A conversion
    specification is [%], optional flags, width, precision and length
    modifier, then the conversion character.  Only [%%] needs no
    argument; every other specification raises, the class depending
    on where the specification stops.  A width above [2^63 - 1] and a
    precision above [2^31 - 1] are refused as soon as they are read. *)

Fixpoint skip_while (p : ascii -> bool) (s : string) : string :=
  match s with
  | String c t => if p c then skip_while p t else s
  | EmptyString => EmptyString
  end.

Definition is_flag (c : ascii) : bool :=
  existsb (Ascii.eqb c) ["-"; "+"; " "; "#"; "0"]%char.

Definition is_digit (c : ascii) : bool := between 48 57 c.

Definition is_length_modifier (c : ascii) : bool :=
  existsb (Ascii.eqb c) ["h"; "l"; "L"]%char.

Definition not_enough_arguments : exc :=
  Exc TypeError "not enough arguments for format string".

Definition incomplete_format : exc := Exc ValueError "incomplete format".

Definition width_too_big : exc := Exc ValueError "width too big".

Definition precision_too_big : exc := Exc ValueError "precision too big".

(** The number written by the digits a string starts with, after
    [acc]. *)
Fixpoint leading_number (acc : Z) (s : string) : Z :=
  match s with
  | String c t =>
    if is_digit c then leading_number (10 * acc + Z.of_N (code c - 48)) t else acc
  | EmptyString => acc
  end.

(** What [%] followed by [spec] raises when [spec] does not start with
    [%] and no argument is left. *)
Definition bad_conversion (spec : string) : exc :=
  match spec with
  | String "(" _ => Exc TypeError "format requires a mapping"
  | _ =>
    match skip_while is_flag spec with
    | String "*" _ => not_enough_arguments
    | after_flags =>
      if 2 ^ 63 - 1 <? leading_number 0 after_flags then width_too_big
      else
        let after_width := skip_while is_digit after_flags in
        let after_precision :=
          match after_width with
          | String "." p => Some p
          | _ => None
          end in
        match after_precision with
        | Some (String "*" _) => not_enough_arguments
        | _ =>
          if match after_precision with
             | Some p => 2 ^ 31 - 1 <? leading_number 0 p
             | None => false
             end
          then precision_too_big
          else
            let rest :=
              match after_precision with
              | Some p => skip_while is_digit p
              | None => after_width
              end in
            let rest :=
              match rest with
              | String c t => if is_length_modifier c then t else rest
              | EmptyString => rest
              end in
            match rest with
            | EmptyString => incomplete_format
            | String _ _ => not_enough_arguments
            end
        end
    end
  end.

Fixpoint percent_format (fmt : string) : result string :=
  match fmt with
  | EmptyString => Ok EmptyString
  | String "%" (String "%" rest) =>
    match percent_format rest with
    | Ok s => Ok (String "%" s)
    | Raise e => Raise e
    end
  | String "%" spec => Raise (bad_conversion spec)
  | String c rest =>
    match percent_format rest with
    | Ok s => Ok (String c s)
    | Raise e => Raise e
    end
  end.

(** ** [repr(s)] for a [str] of code points below 256 *)

Fixpoint contains_char (c : ascii) (s : string) : bool :=
  match s with
  | EmptyString => false
  | String d t => Ascii.eqb c d || contains_char c t
  end.

Definition hex_digit (n : N) : ascii :=
  if (n <? 10)%N then chr (48 + n) else chr (87 + n).

Definition hex_escape (c : ascii) : string :=
  String backslash
    (String "x" (String (hex_digit (code c / 16)) (String (hex_digit (code c mod 16)) ""))).

Definition printable (c : ascii) : bool :=
  between 32 126 c || (between 161 255 c && negb (code c =? 173)%N).

Definition repr_char (quote c : ascii) : string :=
  if Ascii.eqb c quote || Ascii.eqb c backslash then String backslash (String c "")
  else if (code c =? 9)%N then String backslash "t"
  else if (code c =? 10)%N then String backslash "n"
  else if (code c =? 13)%N then String backslash "r"
  else if printable c then String c ""
  else hex_escape c.

Fixpoint repr_body (quote : ascii) (s : string) : string :=
  match s with
  | EmptyString => EmptyString
  | String c t => repr_char quote c ++ repr_body quote t
  end.

Definition repr_str (s : string) : string :=
  let quote :=
    if contains_char squote s && negb (contains_char dquote s)
    then dquote else squote in
  String quote (repr_body quote s ++ String quote "").

(** ** [int(s)] for a [str], base 10 *)

Definition is_space (c : ascii) : bool :=
  existsb (N.eqb (code c)) [9; 10; 11; 12; 13; 32; 133; 160]%N.

Fixpoint lstrip (l : list ascii) : list ascii :=
  match l with
  | c :: t => if is_space c then lstrip t else l
  | [] => []
  end.

Definition strip (l : list ascii) : list ascii :=
  List.rev (lstrip (List.rev (lstrip l))).

(** Digits with single underscores between them; [after_digit] tells
    whether the previous character was a digit. *)
Fixpoint digits (acc : Z) (after_digit : bool) (l : list ascii) : option Z :=
  match l with
  | [] => if after_digit then Some acc else None
  | c :: t =>
    if is_digit c then digits (10 * acc + Z.of_N (code c - 48)) true t
    else if Ascii.eqb c "_" && after_digit then digits acc false t
    else None
  end.

Definition int_literal (l : list ascii) : option Z :=
  match l with
  | "-"%char :: t => option_map Z.opp (digits 0 false t)
  | "+"%char :: t => digits 0 false t
  | _ => digits 0 false l
  end.

Definition invalid_literal (s : string) : exc :=
  Exc ValueError
    ("invalid literal for int() with base 10: " ++ substring 0 200 (repr_str s)).

(** The limit [sys.get_int_max_str_digits()] starts with. *)
Definition int_max_str_digits : nat := 4300.

(** The digits of a literal, leading zeros among them. *)
Definition count_digits (l : list ascii) : nat :=
  List.length (filter is_digit l).

Definition exceeds_limit (digits : nat) : exc :=
  Exc ValueError
    ("Exceeds the limit (4300 digits) for integer string conversion: value has "
     ++ str_of_Z (Z.of_nat digits)
     ++ " digits; use sys.set_int_max_str_digits() to increase the limit").

Definition int_of_str (s : string) : result Z :=
  let literal := strip (list_ascii_of_string s) in
  match int_literal literal with
  | Some z =>
    if (int_max_str_digits <? count_digits literal)%nat
    then Raise (exceeds_limit (count_digits literal))
    else Ok z
  | None => Raise (invalid_literal s)
  end.

(** ** [s.encode('utf-8')] for a [str] of code points below 256 *)

Definition byte_of_N (n : N) : Byte.byte := byte_of_ascii (chr n).

Definition encode_char (c : ascii) : list Byte.byte :=
  if (code c <? 128)%N then [byte_of_ascii c]
  else [byte_of_N (192 + code c / 64); byte_of_N (128 + code c mod 64)].

Fixpoint encode_utf8 (s : string) : list Byte.byte :=
  match s with
  | EmptyString => []
  | String c t => encode_char c ++ encode_utf8 t
  end.

(** ** Insertion-ordered dictionaries with [str] keys *)

Definition dict (V : Type) : Type := list (string * V).

(** [k in d] *)
Fixpoint dict_mem {V} (k : string) (d : dict V) : bool :=
  match d with
  | [] => false
  | (k', _) :: t => String.eqb k k' || dict_mem k t
  end.

(** [d.get(k)] *)
Fixpoint dict_get {V} (k : string) (d : dict V) : option V :=
  match d with
  | [] => None
  | (k', v) :: t => if String.eqb k k' then Some v else dict_get k t
  end.

(** [d[k] = v]: an existing key keeps its position and takes the new
    value, a new key goes last. *)
Fixpoint dict_set {V} (k : string) (v : V) (d : dict V) : dict V :=
  match d with
  | [] => [(k, v)]
  | (k', v') :: t =>
    if String.eqb k k' then (k', v) :: t else (k', v') :: dict_set k v t
  end.

(** [d[k]] *)
Definition dict_subscript {V} (k : string) (d : dict V) : result V :=
  match dict_get k d with
  | Some v => Ok v
  | None => Raise (Exc KeyError (repr_str k))
  end.

End Py.

Module PyNotations.
Notation "x <- c ;; k" := (Py.bind c (fun x => k))
  (at level 61, c at next level, right associativity).
Notation "c ;;; k" := (Py.bind c (fun _ => k))
  (at level 61, right associativity).
End PyNotations.

(* ================================================================== *)
(** * The proxy: [src/microservices/proxy/main.py] *)
(* ================================================================== *)

Module Proxy.
Import Py PyNotations.

(** ** Data *)

(** A [ProxyHandler] instance: the five attributes [__init__] reads
    from the environment, and the request [http.server] parsed before
    it calls [do_GET] and the like. *)
Record ProxyHandler : Type := {
  monolith_url : string;
  movies_service_url : string;
  events_service_url : string;
  gradual_migration : bool;
  movies_migration_percent : Z;
  command : string;
  path : string;
  headers : list (string * string)
}.

(** The arguments of [requests.request]. *)
Record Request : Type := {
  method : string;
  url : string;
  request_headers : dict string;
  data : option (list Byte.byte);
  timeout : Z
}.

(** What the handler reads of a [requests.Response]. *)
Record Response : Type := {
  status_code : Z;
  content : list Byte.byte;
  response_headers : dict string
}.

(** The second argument of [_send_response] is a [str] or [bytes]. *)
Inductive Content : Type :=
| Str (s : string)
| Bytes (b : list Byte.byte).

(** What the handler does on the client connection, call by call.
    [send_response code] stands for the status line together with the
    [Server] and [Date] headers the library adds to it. *)
Inductive WireEvent : Type :=
| send_response (code : Z)
| send_header (keyword value : string)
| end_headers
| wfile_write (b : list Byte.byte).

(** Everything outside the handler object, and the request line.
    - [draws i] is what the [i]-th call of [random.randint(0, 99)] in
      this process returns, [drawn] counts the calls made so far;
    - [stdout] holds the lines printed;
    - [requestline] is the first line of the request as it was
      received, which the library keeps for its access line;
    - [rfile] holds the bytes the client sent after the headers, and
      [read_fault n] is the exception a read of [n] bytes meets, if
      any: no memory for the buffer, a connection that breaks;
    - [backend] is what [requests.request] does with a request, and
      [outbound] lists the requests made;
    - [wire] is the trace of calls on the client connection;
      [sends i] is what becomes of the [i]-th write on its socket,
      [sent] counts the writes made so far. *)
Record World : Type := {
  draws : nat -> Z;
  drawn : nat;
  stdout : list string;
  requestline : string;
  rfile : list Byte.byte;
  read_fault : Z -> option exc;
  backend : Request -> result Response;
  outbound : list Request;
  sends : nat -> result unit;
  sent : nat;
  wire : list WireEvent
}.

Definition set_drawn (n : nat) (w : World) : World :=
  {| draws := draws w; drawn := n; stdout := stdout w;
     requestline := requestline w; rfile := rfile w; read_fault := read_fault w;
     backend := backend w; outbound := outbound w;
     sends := sends w; sent := sent w; wire := wire w |}.

Definition set_stdout (l : list string) (w : World) : World :=
  {| draws := draws w; drawn := drawn w; stdout := l;
     requestline := requestline w; rfile := rfile w; read_fault := read_fault w;
     backend := backend w; outbound := outbound w;
     sends := sends w; sent := sent w; wire := wire w |}.

Definition set_rfile (l : list Byte.byte) (w : World) : World :=
  {| draws := draws w; drawn := drawn w; stdout := stdout w;
     requestline := requestline w; rfile := l; read_fault := read_fault w;
     backend := backend w; outbound := outbound w;
     sends := sends w; sent := sent w; wire := wire w |}.

Definition set_outbound (l : list Request) (w : World) : World :=
  {| draws := draws w; drawn := drawn w; stdout := stdout w;
     requestline := requestline w; rfile := rfile w; read_fault := read_fault w;
     backend := backend w; outbound := l;
     sends := sends w; sent := sent w; wire := wire w |}.

Definition set_sent (n : nat) (w : World) : World :=
  {| draws := draws w; drawn := drawn w; stdout := stdout w;
     requestline := requestline w; rfile := rfile w; read_fault := read_fault w;
     backend := backend w; outbound := outbound w;
     sends := sends w; sent := n; wire := wire w |}.

Definition set_wire (l : list WireEvent) (w : World) : World :=
  {| draws := draws w; drawn := drawn w; stdout := stdout w;
     requestline := requestline w; rfile := rfile w; read_fault := read_fault w;
     backend := backend w; outbound := outbound w;
     sends := sends w; sent := sent w; wire := l |}.

(** ** Library calls *)

(** [random.randint(0, 99)] *)
Definition randint_0_99 : M World Z :=
  fun w => (Ok (draws w (drawn w)), set_drawn (S (drawn w)) w).

(** [print(line)] *)
Definition print (line : string) : M World unit :=
  fun w => (Ok tt, set_stdout (stdout w ++ [line]) w).

(** [self.rfile.read(n)] on the buffered reader of the connection.
    The length has to fit the signed 64-bit size of the reader, and to
    be -1 (read to the end) or more; a [bytes] object takes 33 bytes
    besides its content, so that none holds more than [2^63 - 34]; the
    read itself can fail. *)
Definition rfile_read (n : Z) : M World (list Byte.byte) :=
  fun w =>
    if (n <? - 2 ^ 63) || (2 ^ 63 - 1 <? n) then
      (Raise (Exc OverflowError "cannot fit 'int' into an index-sized integer"), w)
    else if n <? -1 then
      (Raise (Exc ValueError "read length must be non-negative or -1"), w)
    else if 2 ^ 63 - 34 <? n then
      (Raise (Exc OverflowError "byte string is too large"), w)
    else
      match read_fault w n with
      | Some e => (Raise e, w)
      | None =>
        if n =? -1 then (Ok (rfile w), set_rfile [] w)
        else (Ok (firstn (Z.to_nat n) (rfile w)),
              set_rfile (skipn (Z.to_nat n) (rfile w)) w)
      end.

(** [requests.request(method=..., url=..., headers=..., data=..., timeout=...)] *)
Definition requests_request (r : Request) : M World Response :=
  fun w => (backend w r, set_outbound (outbound w ++ [r]) w).

(** A call on the client connection that only fills the buffer of
    headers: [send_response_only] and [send_header]. *)
Definition emit (e : WireEvent) : M World unit :=
  fun w => (Ok tt, set_wire (wire w ++ [e]) w).

(** A call on the client connection that writes on the socket:
    [end_headers], which flushes the buffer of headers, and
    [wfile.write].  The write raises what the socket raises. *)
Definition write (e : WireEvent) : M World unit :=
  fun w => (sends w (sent w), set_sent (S (sent w)) (set_wire (wire w ++ [e]) w)).

(** [self.headers.get(name)]: the first header of that name, compared
    without case. *)
Fixpoint headers_get (name : string) (hs : list (string * string)) : option string :=
  match hs with
  | [] => None
  | (k, v) :: t =>
    if String.eqb (lower k) (lower name) then Some v else headers_get name t
  end.

(** ** [ProxyHandler] *)

(** [os.getenv(key, default)] *)
Definition getenv (env : string -> option string) (key default : string) : string :=
  match env key with
  | Some v => v
  | None => default
  end.

Definition __init__ (env : string -> option string)
    (command path : string) (headers : list (string * string)) : result ProxyHandler :=
  match int_of_str (getenv env "MOVIES_MIGRATION_PERCENT" "0") with
  | Raise e => Raise e
  | Ok percent =>
    Ok {| monolith_url := getenv env "MONOLITH_URL" "http://monolith:8080";
          movies_service_url := getenv env "MOVIES_SERVICE_URL" "http://movies-service:8081";
          events_service_url := getenv env "EVENTS_SERVICE_URL" "http://events-service:8082";
          gradual_migration := String.eqb (lower (getenv env "GRADUAL_MIGRATION" "false")) "true";
          movies_migration_percent := percent;
          command := command;
          path := path;
          headers := headers |}
  end.

(** [log_message(format)], called with no further argument, as the
    handler's own code calls it: [args] is the empty tuple. *)
Definition log_message (format : string) : M World unit :=
  s <- lift (percent_format format) ;;
  print ("[Proxy] " ++ s).

Definition quote : string := String dquote "".

(** The library's [log_request(code)]: it calls [log_message] with the
    format ["%s" %s %s] (the first [%s] between double quotes) and the
    request line, [str(code)] and [-] as arguments; the three strings
    take the places of the three [%s]. *)
Definition log_request (code : Z) : M World unit :=
  fun w =>
    print ("[Proxy] " ++ quote ++ requestline w ++ quote ++ " "
           ++ str_of_Z code ++ " " ++ "-") w.

(** The library's [send_response(code)]: the request is logged, then
    the status line and the [Server] and [Date] headers are put into
    the buffer of headers. *)
Definition self_send_response (code : Z) : M World unit :=
  log_request code ;;;
  emit (send_response code).

Definition _determine_target (self : ProxyHandler) (path : string) : M World string :=
  if String.eqb path "/api/movies/health" then
    ret (movies_service_url self ++ path)
  else if startswith path "/api/movies" then
    if gradual_migration self then
      random_percent <- randint_0_99 ;;
      if random_percent <? movies_migration_percent self then
        log_message ("Routing to movies-service (random: " ++ str_of_Z random_percent
                     ++ " < " ++ str_of_Z (movies_migration_percent self) ++ ")") ;;;
        ret (movies_service_url self ++ path)
      else
        log_message ("Routing to monolith (random: " ++ str_of_Z random_percent
                     ++ " >= " ++ str_of_Z (movies_migration_percent self) ++ ")") ;;;
        ret (monolith_url self ++ path)
    else
      ret (monolith_url self ++ path)
  else if startswith path "/api/events" then
    ret (events_service_url self ++ path)
  else
    ret (monolith_url self ++ path).

Definition truthy_dict {V} (d : option (dict V)) : bool :=
  match d with
  | Some (_ :: _) => true
  | _ => false
  end.

Definition truthy_opt_str (s : option string) : bool :=
  match s with
  | Some s => truthy_str s
  | None => false
  end.

(** The items of a dictionary argument whose default is [None]. *)
Definition items {V} (d : option (dict V)) : dict V :=
  match d with
  | Some h => h
  | None => []
  end.

Definition hop_by_hop_response : list string :=
  ["content-type"; "content-length"; "transfer-encoding"].

(** [len(content)] after the [str] case has been encoded. *)
Definition encoded (content : Content) : list Byte.byte :=
  match content with
  | Str s => encode_utf8 s
  | Bytes b => b
  end.

(** The loop [for header, value in headers.items(): ...] of
    [_send_response]. *)
Fixpoint send_headers (hs : dict string) : M World unit :=
  match hs with
  | [] => ret tt
  | (header, value) :: t =>
    (if negb (in_list (lower header) hop_by_hop_response)
     then emit (send_header header value)
     else ret tt) ;;;
    send_headers t
  end.

Definition _send_response (status_code : Z) (content : Content)
    (headers : option (dict string)) (content_type : option string) : M World unit :=
  self_send_response status_code ;;;
  (if truthy_opt_str content_type then
     emit (send_header "Content-Type" (match content_type with Some ct => ct | None => "" end))
   else if truthy_dict headers && dict_mem "Content-Type" (items headers) then
     value <- lift (dict_subscript "Content-Type" (items headers)) ;;
     emit (send_header "Content-Type" value)
   else
     match content with
     | Str _ => emit (send_header "Content-Type" "text/plain; charset=utf-8")
     | Bytes _ => emit (send_header "Content-Type" "application/json")
     end) ;;;
  (if truthy_dict headers then send_headers (items headers) else ret tt) ;;;
  let content := encoded content in
  emit (send_header "Content-Length" (str_of_Z (Z.of_nat (List.length content)))) ;;;
  write end_headers ;;;
  write (wfile_write content).

Definition error_body (message : string) : string :=
  "{" ++ quote ++ "error" ++ quote ++ ": " ++ quote ++ message ++ quote ++ "}".

Definition _send_error_response (status_code : Z) (message : string) : M World unit :=
  _send_response status_code (Str (error_body message)) None (Some "application/json").

Definition hop_by_hop_request : list string :=
  ["host"; "connection"; "content-length"].

(** The loop [for header, value in self.headers.items(): ...] of
    [_proxy_request], from the dictionary built so far. *)
Fixpoint copy_headers (hs : list (string * string)) (acc : dict string) : dict string :=
  match hs with
  | [] => acc
  | (header, value) :: t =>
    if negb (in_list (lower header) hop_by_hop_request)
    then copy_headers t (dict_set header value acc)
    else copy_headers t acc
  end.

(** The first statements of [_proxy_request]: [body] stays [None]
    unless a [Content-Length] header with a non-empty value is there. *)
Definition read_body (self : ProxyHandler) : M World (option (list Byte.byte)) :=
  match headers_get "Content-Length" (headers self) with
  | Some content_length =>
    if truthy_str content_length then
      n <- lift (int_of_str content_length) ;;
      b <- rfile_read n ;;
      ret (Some b)
    else ret None
  | None => ret None
  end.

(** The body of the [try] statement of [_proxy_request]. *)
Definition relay (self : ProxyHandler) (target_url : string) : M World unit :=
  body <- read_body self ;;
  let headers := copy_headers (headers self) [] in
  let method := command self in
  response <- requests_request
    {| method := method; url := target_url; request_headers := headers;
       data := body; timeout := 30 |} ;;
  _send_response (status_code response) (Bytes (content response))
    (Some (response_headers response)) None.

(** The two [except] clauses of [_proxy_request], in their order. *)
Definition on_error (target_url : string) (e : exc) : M World unit :=
  if is_class RequestException e then
    log_message ("Error proxying request to " ++ target_url ++ ": " ++ exc_str e) ;;;
    _send_error_response 502 ("Bad Gateway: " ++ exc_str e)
  else
    log_message ("Unexpected error: " ++ exc_str e) ;;;
    _send_error_response 500 "Internal Server Error".

Definition _proxy_request (self : ProxyHandler) (target_url : string) : M World unit :=
  try_except (relay self target_url) (on_error target_url).

Definition _handle_request (self : ProxyHandler) : M World unit :=
  let path := path self in
  if String.eqb path "/health" then
    _send_response 200 (Str "Strangler Fig Proxy is healthy") None (Some "text/plain")
  else
    target_url <- _determine_target self path ;;
    if negb (truthy_str target_url) then
      _send_error_response 404 "Not Found"
    else
      _proxy_request self target_url.

Definition do_GET (self : ProxyHandler) : M World unit := _handle_request self.
Definition do_POST (self : ProxyHandler) : M World unit := _handle_request self.
Definition do_PUT (self : ProxyHandler) : M World unit := _handle_request self.
Definition do_DELETE (self : ProxyHandler) : M World unit := _handle_request self.

(** [getattr(self, 'do_' + self.command)], the lookup [http.server]
    makes to find the method that serves a request. *)
Definition do_method (command : string) : option (ProxyHandler -> M World unit) :=
  if String.eqb command "GET" then Some do_GET
  else if String.eqb command "POST" then Some do_POST
  else if String.eqb command "PUT" then Some do_PUT
  else if String.eqb command "DELETE" then Some do_DELETE
  else None.

End Proxy.

(* ================================================================== *)
(** * The events service: [src/microservices/events/main.py] *)
(* ================================================================== *)

Module Events.
Import Py PyNotations.

(** ** Data *)

(** What [json.loads] returns, which is what [request.get_json()]
    hands to a view. *)
#[warnings="-register-all"]
Inductive JSON : Type :=
| JNull
| JBool (b : bool)
| JInt (z : Z)
| JFloat (f : PrimFloat.float)
| JStr (s : string)
| JArr (l : list JSON)
| JObj (d : list (string * JSON)).

(** Truth value. *)
Definition truthy (v : JSON) : bool :=
  match v with
  | JNull => false
  | JBool b => b
  | JInt z => negb (z =? 0)
  | JFloat f => negb (PrimFloat.eqb f PrimFloat.zero)
  | JStr s => truthy_str s
  | JArr l => match l with [] => false | _ => true end
  | JObj d => match d with [] => false | _ => true end
  end.

Definition type_name (v : JSON) : string :=
  match v with
  | JNull => "NoneType"
  | JBool _ => "bool"
  | JInt _ => "int"
  | JFloat _ => "float"
  | JStr _ => "str"
  | JArr _ => "list"
  | JObj _ => "dict"
  end.

Definition is_substring (s1 s2 : string) : bool :=
  match String.index 0 s1 s2 with
  | Some _ => true
  | None => false
  end.

(** [field in data] for a [str] [field]. *)
Definition contains (field : string) (data : JSON) : result bool :=
  match data with
  | JObj d => Ok (dict_mem field d)
  | JArr l =>
    Ok (existsb (fun x => match x with JStr s => String.eqb s field | _ => false end) l)
  | JStr s => Ok (is_substring field s)
  | _ =>
    Raise (Exc TypeError
             ("argument of type " ++ repr_str (type_name data) ++ " is not iterable"))
  end.

(** [data[key]] for a [str] [key]. *)
Definition subscript (data : JSON) (key : string) : result JSON :=
  match data with
  | JObj d => dict_subscript key d
  | JArr _ => Raise (Exc TypeError "list indices must be integers or slices, not str")
  | JStr _ => Raise (Exc TypeError "string indices must be integers, not 'str'")
  | _ =>
    Raise (Exc TypeError (repr_str (type_name data) ++ " object is not subscriptable"))
  end.

(** A record handed to [producer.send], before serialization. *)
Record ProducerRecord : Type := {
  topic : string;
  value : JSON;
  key : string
}.

Record RecordMetadata : Type := {
  partition : Z;
  offset : Z
}.

Inductive Level : Type := INFO | ERROR.

(** Everything outside the view functions.
    - [uuid4_hex i] is the [hex] of the [i]-th [uuid.uuid4()] of the
      process, [uuids] counts those made so far;
    - [utcnow] is [datetime.utcnow().isoformat()];
    - [broker r] is how sending [r] and waiting for its future ends,
      and [produced] lists the records handed to [producer.send];
    - [log] holds the records of [logger]. *)
Record World : Type := {
  uuid4_hex : nat -> string;
  uuids : nat;
  utcnow : string;
  broker : ProducerRecord -> result RecordMetadata;
  produced : list ProducerRecord;
  log : list (Level * string)
}.

Definition set_uuids (n : nat) (w : World) : World :=
  {| uuid4_hex := uuid4_hex w; uuids := n; utcnow := utcnow w;
     broker := broker w; produced := produced w; log := log w |}.

Definition set_produced (l : list ProducerRecord) (w : World) : World :=
  {| uuid4_hex := uuid4_hex w; uuids := uuids w; utcnow := utcnow w;
     broker := broker w; produced := l; log := log w |}.

Definition set_log (l : list (Level * string)) (w : World) : World :=
  {| uuid4_hex := uuid4_hex w; uuids := uuids w; utcnow := utcnow w;
     broker := broker w; produced := produced w; log := l |}.

(** ** Library calls *)

(** [uuid.uuid4().hex] *)
Definition uuid4 : M World string :=
  fun w => (Ok (uuid4_hex w (uuids w)), set_uuids (S (uuids w)) w).

(** [datetime.utcnow().isoformat()] *)
Definition utcnow_isoformat : M World string :=
  fun w => (Ok (utcnow w), w).

(** [producer.send(topic, value=..., key=...)]: the record is handed to
    the producer, the future returned holds how it will end. *)
Definition producer_send (r : ProducerRecord) : M World (result RecordMetadata) :=
  fun w => (Ok (broker w r), set_produced (produced w ++ [r]) w).

(** [future.get(timeout=10)] *)
Definition future_get (future : result RecordMetadata) : M World RecordMetadata :=
  lift future.

Definition logger_info (msg : string) : M World unit :=
  fun w => (Ok tt, set_log (log w ++ [(INFO, msg)]) w).

Definition logger_error (msg : string) : M World unit :=
  fun w => (Ok tt, set_log (log w ++ [(ERROR, msg)]) w).

(** The Flask request, as far as the views read it. *)
Record FlaskRequest : Type := {
  get_json : result JSON
}.

(** A view returns [jsonify(obj), status]. *)
Definition View : Type := M World (JSON * Z).

Definition jsonify (obj : list (string * JSON)) : JSON := JObj obj.

(** The loop [for field in required_fields: if field not in data: ...]:
    the first field that is missing, if any. *)
Fixpoint first_missing (required_fields : list string) (data : JSON) : result (option string) :=
  match required_fields with
  | [] => Ok None
  | field :: t =>
    match contains field data with
    | Raise e => Raise e
    | Ok true => first_missing t data
    | Ok false => Ok (Some field)
    end
  end.

Section Views.

(** [repr] of a [float], which the views reach only through [str] of a
    payload value. *)
Variable float_repr : PrimFloat.float -> string.

Fixpoint repr (v : JSON) : string :=
  match v with
  | JNull => "None"
  | JBool true => "True"
  | JBool false => "False"
  | JInt z => str_of_Z z
  | JFloat f => float_repr f
  | JStr s => repr_str s
  | JArr l => "[" ++ String.concat ", " (map repr l) ++ "]"
  | JObj d =>
    "{" ++ String.concat ", " (map (fun kv => repr_str (fst kv) ++ ": " ++ repr (snd kv)) d) ++ "}"
  end.

(** [str(v)], also what [{v}] in an f-string inserts. *)
Definition str (v : JSON) : string :=
  match v with
  | JStr s => s
  | _ => repr v
  end.

Definition create_movie_event (request : FlaskRequest) : View :=
  try_except
    (data <- lift (get_json request) ;;
     if negb (truthy data) then
       ret (jsonify [("error", JStr "Request body is required")], 400)
     else
       let required_fields := ["movie_id"; "title"; "action"] in
       missing <- lift (first_missing required_fields data) ;;
       match missing with
       | Some field =>
         ret (jsonify [("error", JStr ("Missing required field: " ++ field))], 400)
       | None =>
         movie_id <- lift (subscript data "movie_id") ;;
         action <- lift (subscript data "action") ;;
         hex <- uuid4 ;;
         let event_id :=
           "movie-" ++ str movie_id ++ "-" ++ str action ++ "-" ++ substring 0 8 hex in
         now <- utcnow_isoformat ;;
         let timestamp := now ++ "Z" in
         let event :=
           JObj [("id", JStr event_id); ("type", JStr "movie");
                 ("timestamp", JStr timestamp); ("payload", data)] in
         movie_id <- lift (subscript data "movie_id") ;;
         future <- producer_send
           {| topic := "movie-events"; value := event; key := str movie_id |} ;;
         record_metadata <- future_get future ;;
         let response :=
           [("status", JStr "success");
            ("partition", JInt (partition record_metadata));
            ("offset", JInt (offset record_metadata));
            ("event", event)] in
         logger_info ("Movie event sent to Kafka: " ++ event_id
                      ++ ", partition: " ++ str_of_Z (partition record_metadata)
                      ++ ", offset: " ++ str_of_Z (offset record_metadata)) ;;;
         ret (jsonify response, 201)
       end)
    (fun e =>
       if is_class KafkaError e then
         logger_error ("Kafka error: " ++ exc_str e) ;;;
         ret (jsonify [("error", JStr "Failed to send event to Kafka")], 500)
       else
         logger_error ("Error creating movie event: " ++ exc_str e) ;;;
         ret (jsonify [("error", JStr "Internal server error")], 500)).

Definition create_user_event (request : FlaskRequest) : View :=
  try_except
    (data <- lift (get_json request) ;;
     if negb (truthy data) then
       ret (jsonify [("error", JStr "Request body is required")], 400)
     else
       let required_fields := ["user_id"; "action"; "timestamp"] in
       missing <- lift (first_missing required_fields data) ;;
       match missing with
       | Some field =>
         ret (jsonify [("error", JStr ("Missing required field: " ++ field))], 400)
       | None =>
         user_id <- lift (subscript data "user_id") ;;
         action <- lift (subscript data "action") ;;
         hex <- uuid4 ;;
         let event_id :=
           "user-" ++ str user_id ++ "-" ++ str action ++ "-" ++ substring 0 8 hex in
         timestamp <- lift (subscript data "timestamp") ;;
         let event :=
           JObj [("id", JStr event_id); ("type", JStr "user");
                 ("timestamp", timestamp); ("payload", data)] in
         user_id <- lift (subscript data "user_id") ;;
         future <- producer_send
           {| topic := "user-events"; value := event; key := str user_id |} ;;
         record_metadata <- future_get future ;;
         let response :=
           [("status", JStr "success");
            ("partition", JInt (partition record_metadata));
            ("offset", JInt (offset record_metadata));
            ("event", event)] in
         logger_info ("User event sent to Kafka: " ++ event_id
                      ++ ", partition: " ++ str_of_Z (partition record_metadata)
                      ++ ", offset: " ++ str_of_Z (offset record_metadata)) ;;;
         ret (jsonify response, 201)
       end)
    (fun e =>
       if is_class KafkaError e then
         logger_error ("Kafka error: " ++ exc_str e) ;;;
         ret (jsonify [("error", JStr "Failed to send event to Kafka")], 500)
       else
         logger_error ("Error creating user event: " ++ exc_str e) ;;;
         ret (jsonify [("error", JStr "Internal server error")], 500)).

Definition create_payment_event (request : FlaskRequest) : View :=
  try_except
    (data <- lift (get_json request) ;;
     if negb (truthy data) then
       ret (jsonify [("error", JStr "Request body is required")], 400)
     else
       let required_fields := ["payment_id"; "user_id"; "amount"; "status"; "timestamp"] in
       missing <- lift (first_missing required_fields data) ;;
       match missing with
       | Some field =>
         ret (jsonify [("error", JStr ("Missing required field: " ++ field))], 400)
       | None =>
         payment_id <- lift (subscript data "payment_id") ;;
         status <- lift (subscript data "status") ;;
         hex <- uuid4 ;;
         let event_id :=
           "payment-" ++ str payment_id ++ "-" ++ str status ++ "-" ++ substring 0 8 hex in
         timestamp <- lift (subscript data "timestamp") ;;
         let event :=
           JObj [("id", JStr event_id); ("type", JStr "payment");
                 ("timestamp", timestamp); ("payload", data)] in
         user_id <- lift (subscript data "user_id") ;;
         future <- producer_send
           {| topic := "payment-events"; value := event; key := str user_id |} ;;
         record_metadata <- future_get future ;;
         let response :=
           [("status", JStr "success");
            ("partition", JInt (partition record_metadata));
            ("offset", JInt (offset record_metadata));
            ("event", event)] in
         logger_info ("Payment event sent to Kafka: " ++ event_id
                      ++ ", partition: " ++ str_of_Z (partition record_metadata)
                      ++ ", offset: " ++ str_of_Z (offset record_metadata)) ;;;
         ret (jsonify response, 201)
       end)
    (fun e =>
       if is_class KafkaError e then
         logger_error ("Kafka error: " ++ exc_str e) ;;;
         ret (jsonify [("error", JStr "Failed to send event to Kafka")], 500)
       else
         logger_error ("Error creating payment event: " ++ exc_str e) ;;;
         ret (jsonify [("error", JStr "Internal server error")], 500)).

End Views.

End Events.

(* ================================================================== *)
(** * Terms the statements are written in *)
(* ================================================================== *)

Module ProxyTerms.
Import Py PyNotations Proxy.

(** [keeps f c]: whatever [c] does, the component [f] of the world is
    afterwards what it was. *)
Definition keeps {A B} (f : World -> B) (c : M World A) : Prop :=
  forall w, f (snd (c w)) = f w.

(** The inbound headers the loop of [_proxy_request] lets through. *)
Definition forwarded (hs : list (string * string)) : list (string * string) :=
  filter (fun kv => negb (in_list (lower (fst kv)) hop_by_hop_request)) hs.

(** The request [relay] makes once the body [body] has been read. *)
Definition outbound_request (self : ProxyHandler) (target_url : string)
    (body : option (list Byte.byte)) : Request :=
  {| method := command self;
     url := target_url;
     request_headers := copy_headers (headers self) [];
     data := body;
     timeout := 30 |}.

Definition header_event (kv : string * string) : WireEvent :=
  send_header (fst kv) (snd kv).


(** The backend headers the loop of [_send_response] passes on. *)
Definition relayed (hs : dict string) : dict string :=
  filter (fun kv => negb (in_list (lower (fst kv)) hop_by_hop_response)) hs.

(** The [Content-Type] of a relayed response: the backend's when its
    headers have that very key, else the default for [bytes]. *)
Definition relayed_content_type (hs : dict string) : string :=
  match dict_get "Content-Type" hs with
  | Some v => v
  | None => "application/json"
  end.

(** The calls [_send_response] makes to relay a backend response. *)
Definition relayed_events (response : Response) : list WireEvent :=
  [send_response (status_code response);
   send_header "Content-Type" (relayed_content_type (response_headers response))]
  ++ map header_event (relayed (response_headers response))
  ++ [send_header "Content-Length" (str_of_Z (Z.of_nat (List.length (content response))));
      end_headers;
      wfile_write (content response)].

(** The calls [_send_error_response] makes. *)
Definition error_events (status : Z) (message : string) : list WireEvent :=
  [send_response status;
   send_header "Content-Type" "application/json";
   send_header "Content-Length"
     (str_of_Z (Z.of_nat (List.length (encode_utf8 (error_body message)))));
   end_headers;
   wfile_write (encode_utf8 (error_body message))].

(** The line the library prints when a response with status [code] is
    started. *)
Definition access_line (w : World) (code : Z) : string :=
  "[Proxy] " ++ quote ++ requestline w ++ quote ++ " " ++ str_of_Z code ++ " -".

(** The client connection takes the two writes of the next response:
    its headers and its body. *)
Definition takes_response (w : World) : Prop :=
  sends w (sent w) = Ok tt /\ sends w (S (sent w)) = Ok tt.

(** The world after a response with status [code] has been sent with
    the calls [events], both writes having gone through. *)
Definition answered (code : Z) (events : list WireEvent) (w : World) : World :=
  set_sent (S (S (sent w)))
    (set_wire (wire w ++ events)
       (set_stdout (stdout w ++ [access_line w code]) w)).

(** The same handler for a request made with another method. *)
Definition with_command (m : string) (self : ProxyHandler) : ProxyHandler :=
  {| monolith_url := monolith_url self;
     movies_service_url := movies_service_url self;
     events_service_url := events_service_url self;
     gradual_migration := gradual_migration self;
     movies_migration_percent := movies_migration_percent self;
     command := m;
     path := path self;
     headers := headers self |}.

Definition handled : list string := ["GET"; "POST"; "PUT"; "DELETE"].

(** [n] routing decisions for the same path, one after the other. *)
Fixpoint trials (self : ProxyHandler) (path : string) (n : nat) : M World (list string) :=
  match n with
  | O => ret []
  | S n =>
    target_url <- _determine_target self path ;;
    rest <- trials self path n ;;
    ret (target_url :: rest)
  end.

End ProxyTerms.

Module EventTerms.
Import Py Events.

(** The three categories of event and what tells their views apart. *)
Inductive Category : Type := Movie | User | Payment.

Definition category_name (c : Category) : string :=
  match c with
  | Movie => "movie"
  | User => "user"
  | Payment => "payment"
  end.

Definition required (c : Category) : list string :=
  match c with
  | Movie => ["movie_id"; "title"; "action"]
  | User => ["user_id"; "action"; "timestamp"]
  | Payment => ["payment_id"; "user_id"; "amount"; "status"; "timestamp"]
  end.

Definition entity_field (c : Category) : string :=
  match c with
  | Movie => "movie_id"
  | User => "user_id"
  | Payment => "payment_id"
  end.

Definition topic_of (c : Category) : string :=
  match c with
  | Movie => "movie-events"
  | User => "user-events"
  | Payment => "payment-events"
  end.

Definition view (float_repr : PrimFloat.float -> string) (c : Category) :
    FlaskRequest -> View :=
  match c with
  | Movie => create_movie_event float_repr
  | User => create_user_event float_repr
  | Payment => create_payment_event float_repr
  end.

End EventTerms.

(* ================================================================== *)
(** * Sample requests and worlds *)
(* ================================================================== *)

Module Samples.
Import Py Proxy.

(** The handler [__init__] builds when no variable is set but the two
    that govern the split. *)
Definition handler (gradual : bool) (percent : Z)
    (command path : string) (headers : list (string * string)) : ProxyHandler :=
  {| monolith_url := "http://monolith:8080";
     movies_service_url := "http://movies-service:8081";
     events_service_url := "http://events-service:8082";
     gradual_migration := gradual;
     movies_migration_percent := percent;
     command := command;
     path := path;
     headers := headers |}.

(** A world in which every draw is [r], the backend answers every
    request with [answer], and the client, who asked for [/], sent
    [body] and takes whatever is written to it. *)
Definition world (r : Z) (body : list Byte.byte) (answer : result Response) : World :=
  {| draws := fun _ => r;
     drawn := 0;
     stdout := [];
     requestline := "GET / HTTP/1.1";
     rfile := body;
     read_fault := fun _ => None;
     backend := fun _ => answer;
     outbound := [];
     sends := fun _ => Ok tt;
     sent := 0;
     wire := [] |}.

(** The same world for a client whose request line was [line]. *)
Definition asked (line : string) (w : World) : World :=
  {| draws := draws w; drawn := drawn w; stdout := stdout w;
     requestline := line; rfile := rfile w; read_fault := read_fault w;
     backend := backend w; outbound := outbound w;
     sends := sends w; sent := sent w; wire := wire w |}.

(** The same world for a client that is gone: every write on its
    connection fails. *)
Definition hung_up (w : World) : World :=
  {| draws := draws w; drawn := drawn w; stdout := stdout w;
     requestline := requestline w; rfile := rfile w; read_fault := read_fault w;
     backend := backend w; outbound := outbound w;
     sends := fun _ => Raise (Exc OSError "[Errno 32] Broken pipe");
     sent := sent w; wire := wire w |}.

Definition refused : result Response :=
  Raise (Exc RequestException "Connection refused").

(** A request with a two-byte body and a chunked marker. *)
Definition post_users : ProxyHandler :=
  handler false 0 "POST" "/api/users"
    [("Host", "proxy:8000"); ("Content-Length", "2"); ("X-Trace", "abc");
     ("Transfer-Encoding", "chunked")].

(** A backend answer of three bytes that announces more. *)
Definition created : Response :=
  {| status_code := 201;
     content := [x7b; x7d; x0a];
     response_headers :=
       [("Content-Type", "text/html"); ("Connection", "close");
        ("Content-Length", "999"); ("X-Backend", "monolith")] |}.

(** A request whose query string holds an escaped space. *)
Definition get_escaped : ProxyHandler :=
  handler false 0 "GET" "/api/users?name=a%20b" [].

(** A world of the events service whose broker takes every record. *)
Definition events_world : Events.World :=
  {| Events.uuid4_hex := fun _ => "0123456789abcdef0123456789abcdef";
     Events.uuids := 0;
     Events.utcnow := "2025-01-01T00:00:00";
     Events.broker := fun _ => Ok {| Events.partition := 0; Events.offset := 41 |};
     Events.produced := [];
     Events.log := [] |}.

(** The same with a broker that times out. *)
Definition events_world_down : Events.World :=
  {| Events.uuid4_hex := fun _ => "0123456789abcdef0123456789abcdef";
     Events.uuids := 0;
     Events.utcnow := "2025-01-01T00:00:00";
     Events.broker := fun _ => Raise (Exc KafkaError "KafkaTimeoutError");
     Events.produced := [];
     Events.log := [] |}.

Definition movie_viewed : list (string * Events.JSON) :=
  [("movie_id", Events.JInt 7); ("title", Events.JStr "Alien");
   ("action", Events.JStr "viewed")].

Definition movie_untitled : list (string * Events.JSON) :=
  [("movie_id", Events.JInt 7); ("action", Events.JStr "viewed")].

Definition posted (d : list (string * Events.JSON)) : Events.FlaskRequest :=
  {| Events.get_json := Ok (Events.JObj d) |}.

(** A rendering of floats for payloads that hold none. *)
Definition no_float : PrimFloat.float -> string := fun _ => "nan".

End Samples.

(* ================================================================== *)
(** * The rest of the events service *)
(* ================================================================== *)

Module EventsRest.
Import Py PyNotations Events.

(** [health]: the liveness view. *)
Definition health : View :=
  ret (jsonify [("status", JBool true)], 200).

(** ** The consumers *)

(** What [consumer.poll] returns: for each partition that has
    something, the values of its messages, already decoded. *)
Definition MessagePack : Type := list ((string * Z) * list JSON).

(** The world of one consumer thread.
    - [connect] is how building the [KafkaConsumer] ends;
    - [polls i] is how the [i]-th [consumer.poll] ends, [polled]
      counts the calls made so far;
    - [journal] holds the records of [logger]. *)
Record World : Type := {
  connect : result unit;
  polls : nat -> result MessagePack;
  polled : nat;
  journal : list (Level * string)
}.

Definition set_polled (n : nat) (w : World) : World :=
  {| connect := connect w; polls := polls w; polled := n; journal := journal w |}.

Definition set_journal (l : list (Level * string)) (w : World) : World :=
  {| connect := connect w; polls := polls w; polled := polled w; journal := l |}.

(** [KafkaConsumer(topic_name, ...)] *)
Definition KafkaConsumer : M World unit := fun w => (connect w, w).

(** [consumer.poll(timeout_ms=1000)] *)
Definition poll : M World MessagePack :=
  fun w => (polls w (polled w), set_polled (S (polled w)) w).

Definition info (msg : string) : M World unit :=
  fun w => (Ok tt, set_journal (journal w ++ [(INFO, msg)]) w).

Definition error (msg : string) : M World unit :=
  fun w => (Ok tt, set_journal (journal w ++ [(ERROR, msg)]) w).

Section Consumer.

(** [json.dumps(value, indent=2)] *)
Variable dumps : JSON -> string.

(** The line logged for one message. *)
Definition received (topic_name : string) (event_data : JSON) : string :=
  "[" ++ topic_name ++ "] Received event: " ++ dumps event_data.

(** [for message in messages: ...] *)
Fixpoint log_messages (topic_name : string) (messages : list JSON) : M World unit :=
  match messages with
  | [] => ret tt
  | event_data :: rest =>
    info (received topic_name event_data) ;;;
    log_messages topic_name rest
  end.

(** [for topic_partition, messages in message_pack.items(): ...] *)
Fixpoint log_pack (topic_name : string) (message_pack : MessagePack) : M World unit :=
  match message_pack with
  | [] => ret tt
  | (_, messages) :: rest =>
    log_messages topic_name messages ;;;
    log_pack topic_name rest
  end.

(** One turn of the [while True] loop: [true] to go on, [false] after
    [break]. *)
Definition turn (topic_name : string) : M World bool :=
  try_except
    (message_pack <- poll ;;
     log_pack topic_name message_pack ;;;
     ret true)
    (fun e =>
       error ("Error consuming from " ++ topic_name ++ ": " ++ exc_str e) ;;;
       ret false).

(** The loop, cut after [fuel] turns: [Some tt] when it was left by
    [break], [None] when it is still running. *)
Fixpoint loop (topic_name : string) (fuel : nat) : M World (option unit) :=
  match fuel with
  | O => ret None
  | S fuel =>
    go_on <- turn topic_name ;;
    if go_on then loop topic_name fuel else ret (Some tt)
  end.

Definition consume_topic (topic_name : string) (fuel : nat) : M World (option unit) :=
  KafkaConsumer ;;;
  info ("Consumer for " ++ topic_name ++ " started, waiting for messages...") ;;;
  loop topic_name fuel.

End Consumer.

End EventsRest.

(* ================================================================== *)
(** * Further terms the statements are written in *)
(* ================================================================== *)

Module MoreTerms.
Import Py PyNotations Proxy ProxyTerms.

(** The [Content-Type] [_send_response] sends: the argument if it is
    given, else the one among the headers, else the one that goes with
    the kind of content. *)
Definition chosen_content_type (content : Content)
    (headers : option (dict string)) (content_type : option string) : string :=
  if truthy_opt_str content_type then
    match content_type with Some ct => ct | None => "" end
  else
    match dict_get "Content-Type" (items headers) with
    | Some v => v
    | None =>
      match content with
      | Str _ => "text/plain; charset=utf-8"
      | Bytes _ => "application/json"
      end
    end.

(** The calls of one [_send_response]. *)
Definition response_events (status : Z) (content : Content)
    (headers : option (dict string)) (content_type : option string) : list WireEvent :=
  [send_response status;
   send_header "Content-Type" (chosen_content_type content headers content_type)]
  ++ map header_event (relayed (items headers))
  ++ [send_header "Content-Length"
        (str_of_Z (Z.of_nat (List.length (encoded content))));
      end_headers;
      wfile_write (encoded content)].

Definition is_send_response (e : WireEvent) : bool :=
  match e with
  | send_response _ => true
  | _ => false
  end.

(** How many responses a trace starts. *)
Definition responses (l : list WireEvent) : nat :=
  List.length (filter is_send_response l).

(** A trace that is one complete response. *)
Definition one_response (events : list WireEvent) : Prop :=
  responses events = 1%nat /\ exists b, last events end_headers = wfile_write b.

(** The world in which the next draw is [r]. *)
Definition with_draw (r : Z) (w : World) : World :=
  {| draws := fun _ => r; drawn := drawn w; stdout := stdout w;
     requestline := requestline w; rfile := rfile w; read_fault := read_fault w;
     backend := backend w; outbound := outbound w;
     sends := sends w; sent := sent w; wire := wire w |}.

(** Whether a request for [path] goes to the movies service when the
    draw is [r]. *)
Definition goes_to_movies (self : ProxyHandler) (path : string) (w : World) (r : Z) : bool :=
  match fst (_determine_target self path (with_draw r w)) with
  | Ok target_url => String.eqb target_url (movies_service_url self ++ path)
  | Raise _ => false
  end.

(** The hundred values [random.randint(0, 99)] can take. *)
Definition all_draws : list Z := map Z.of_nat (seq 0 100).

(** The field whose value keys the record of a category: payments
    are keyed by user. *)
Definition key_field (c : EventTerms.Category) : string :=
  match c with
  | EventTerms.Movie => "movie_id"
  | EventTerms.User => "user_id"
  | EventTerms.Payment => "user_id"
  end.

(** The field that follows the entity id in the identifier. *)
Definition second_field (c : EventTerms.Category) : string :=
  match c with
  | EventTerms.Movie => "action"
  | EventTerms.User => "action"
  | EventTerms.Payment => "status"
  end.

(** The lines [log_pack] writes for a pack, in order. *)
Definition pack_lines (dumps : Events.JSON -> string) (topic_name : string)
    (message_pack : EventsRest.MessagePack) : list (Events.Level * string) :=
  map (fun v => (Events.INFO, EventsRest.received dumps topic_name v))
    (List.concat (map snd message_pack)).

(** The packs the first [k] polls of a world return, failed polls
    counting for nothing. *)
Fixpoint polled_packs (polls : nat -> result EventsRest.MessagePack) (from k : nat) :
    list EventsRest.MessagePack :=
  match k with
  | O => []
  | S k =>
    match polls from with
    | Ok message_pack => message_pack :: polled_packs polls (S from) k
    | Raise _ => polled_packs polls (S from) k
    end
  end.

(** The lines logged for the packs of polls [from], ..., [from + k - 1]. *)
Definition lines_of (dumps : Events.JSON -> string) (topic_name : string)
    (polls : nat -> result EventsRest.MessagePack) (from k : nat) :
    list (Events.Level * string) :=
  List.concat (map (pack_lines dumps topic_name) (polled_packs polls from k)).

(** The line logged when a poll fails. *)
Definition failure_line (topic_name : string) (e : exc) : Events.Level * string :=
  (Events.ERROR, "Error consuming from " ++ topic_name ++ ": " ++ exc_str e).

End MoreTerms.

Module MoreSamples.
Import Py.

(** A consumer whose first poll returns two messages, whose second
    poll returns nothing, and whose third poll fails. *)
Definition consumer_world : EventsRest.World :=
  {| EventsRest.connect := Ok tt;
     EventsRest.polls := fun i =>
       match i with
       | O => Ok [(("movie-events", 0), [Events.JInt 1; Events.JInt 2])]
       | S O => Ok []
       | _ => Raise (Exc KafkaError "Connection closed")
       end;
     EventsRest.polled := 0;
     EventsRest.journal := [] |}.

(** [json.dumps] on the values of the sample packs, which are
    integers. *)
Definition dumps_int (v : Events.JSON) : string :=
  match v with
  | Events.JInt z => str_of_Z z
  | _ => "null"
  end.

End MoreSamples.

(* ================================================================== *)
(** * Facts about the Python fragment *)
(* ================================================================== *)

Module PyFacts.
Import Py.

Lemma bind_ok {W A B} (c : M W A) (k : A -> M W B) w a w' :
  c w = (Ok a, w') -> bind c k w = k a w'.
Proof. intros H. unfold bind. now rewrite H. Qed.

Lemma bind_raise {W A B} (c : M W A) (k : A -> M W B) w e w' :
  c w = (Raise e, w') -> bind c k w = (Raise e, w').
Proof. intros H. unfold bind. now rewrite H. Qed.

Lemma contains_char_app c s t :
  contains_char c (s ++ t) = contains_char c s || contains_char c t.
Proof.
  induction s as [|d s IH]; simpl.
  - reflexivity.
  - now rewrite IH, orb_assoc.
Qed.

(** A format without a percent sign is printed as it is. *)
Lemma percent_format_plain s :
  contains_char percent s = false -> percent_format s = Ok s.
Proof.
  induction s as [|c s IH]; intros H.
  - reflexivity.
  - simpl in H. apply orb_false_elim in H. destruct H as [Hc Hs].
    specialize (IH Hs).
    destruct c as [[] [] [] [] [] [] [] []];
      try discriminate Hc; simpl; now rewrite IH.
Qed.

(** A percent sign that is not doubled makes the format fail. *)
Lemma percent_format_bad_conversion s t :
  contains_char percent s = false ->
  startswith t "%" = false ->
  percent_format (s ++ String percent t) = Raise (bad_conversion t).
Proof.
  intros Hs Ht. induction s as [|c s IH].
  - simpl. destruct t as [|d t]; [reflexivity|].
    destruct d as [[] [] [] [] [] [] [] []]; try reflexivity.
    unfold startswith in Ht. simpl in Ht. destruct t; discriminate Ht.
  - simpl in Hs. apply orb_false_elim in Hs. destruct Hs as [Hc Hs].
    specialize (IH Hs).
    destruct c as [[] [] [] [] [] [] [] []];
      try discriminate Hc; simpl; now rewrite IH.
Qed.

Lemma string_of_uint_digits d :
  contains_char percent (NilEmpty.string_of_uint d) = false.
Proof. induction d; simpl; auto. Qed.

(** The decimal rendering of an integer holds no percent sign. *)
Lemma str_of_Z_plain z : contains_char percent (str_of_Z z) = false.
Proof.
  unfold str_of_Z, NilZero.string_of_int, NilZero.string_of_uint.
  destruct (Z.to_int z) as [d|d]; destruct d; simpl;
    auto using string_of_uint_digits.
Qed.

Lemma prefix_inv p s : String.prefix p s = true -> exists r, s = p ++ r.
Proof.
  revert s. induction p as [|a p IH]; intros s H.
  - now exists s.
  - destruct s as [|b s]; simpl in H; [discriminate|].
    destruct (ascii_dec a b) as [->|]; [|discriminate].
    destruct (IH _ H) as [r ->]. now exists r.
Qed.

Lemma append_nonempty_r s t : t <> "" -> s ++ t <> "".
Proof.
  intros Ht. destruct s; simpl; [assumption | discriminate].
Qed.

Lemma truthy_str_iff s : truthy_str s = true <-> s <> "".
Proof.
  destruct s; simpl; split; intros H; try discriminate; try reflexivity.
  now contradiction H.
Qed.

(** ** The fragment at work *)

Example percent_format_doubled : percent_format "100%% done" = Ok "100% done".
Proof. reflexivity. Qed.

Example percent_format_escape :
  percent_format "/api/users?name=a%20b" = Raise not_enough_arguments.
Proof. reflexivity. Qed.

Example percent_format_trailing : percent_format "100%" = Raise incomplete_format.
Proof. reflexivity. Qed.

Example percent_format_width :
  percent_format "%9223372036854775807" = Raise incomplete_format /\
  percent_format "%9223372036854775808d" = Raise width_too_big.
Proof. split; vm_compute; reflexivity. Qed.

Example percent_format_precision :
  percent_format "%5.2147483647" = Raise incomplete_format /\
  percent_format "%5.2147483648%" = Raise precision_too_big.
Proof. split; vm_compute; reflexivity. Qed.

Example int_of_str_padded : int_of_str " 1_000 " = Ok 1000.
Proof. reflexivity. Qed.

Example int_of_str_invalid :
  int_of_str "5%"
  = Raise (Exc ValueError "invalid literal for int() with base 10: '5%'").
Proof. reflexivity. Qed.

(** 4300 digits are converted, leading zeros counted; one more is
    refused. *)
Example int_of_str_limit :
  int_of_str (string_of_list_ascii (repeat "0"%char 4299 ++ ["7"%char])) = Ok 7 /\
  int_of_str (string_of_list_ascii (repeat "0"%char 4300 ++ ["7"%char]))
  = Raise (Exc ValueError
             ("Exceeds the limit (4300 digits) for integer string conversion: "
              ++ "value has 4301 digits; "
              ++ "use sys.set_int_max_str_digits() to increase the limit")).
Proof. split; vm_compute; reflexivity. Qed.

Example lower_header : lower "Content-LENGTH" = "content-length".
Proof. reflexivity. Qed.

Example str_of_Z_negative : str_of_Z (-42) = "-42".
Proof. reflexivity. Qed.

End PyFacts.

(* ================================================================== *)
(** * The router *)
(* ================================================================== *)

Module Routing.
Import Py PyNotations Proxy ProxyTerms PyFacts.

(** The two lines [_determine_target] logs are built from integers
    only, so [log_message] prints them. *)
Lemma log_routing_line (pre mid : string) (r p : Z) w :
  contains_char percent pre = false ->
  contains_char percent mid = false ->
  log_message (pre ++ str_of_Z r ++ mid ++ str_of_Z p ++ ")") w
  = print ("[Proxy] " ++ pre ++ str_of_Z r ++ mid ++ str_of_Z p ++ ")") w.
Proof.
  intros Hpre Hmid. unfold log_message, bind, lift.
  rewrite percent_format_plain; [reflexivity|].
  repeat rewrite contains_char_app.
  now rewrite Hpre, Hmid, !str_of_Z_plain.
Qed.

(** What [_determine_target] does under the migrated prefix when
    gradual migration is on: one draw, one line printed. *)
Lemma determine_target_split self path w :
  path <> "/api/movies/health" ->
  startswith path "/api/movies" = true ->
  gradual_migration self = true ->
  let r := draws w (drawn w) in
  let p := movies_migration_percent self in
  _determine_target self path w =
  if r <? p then
    (Ok (movies_service_url self ++ path),
     set_stdout (stdout w ++ ["[Proxy] Routing to movies-service (random: "
                              ++ str_of_Z r ++ " < " ++ str_of_Z p ++ ")"])
                (set_drawn (S (drawn w)) w))
  else
    (Ok (monolith_url self ++ path),
     set_stdout (stdout w ++ ["[Proxy] Routing to monolith (random: "
                              ++ str_of_Z r ++ " >= " ++ str_of_Z p ++ ")"])
                (set_drawn (S (drawn w)) w)).
Proof.
  intros Hne Hpre Hgm r p. unfold _determine_target.
  apply String.eqb_neq in Hne. rewrite Hne, Hpre, Hgm.
  unfold bind at 1. unfold randint_0_99. fold r. fold p.
  destruct (r <? p).
  - unfold bind. rewrite log_routing_line by reflexivity. reflexivity.
  - unfold bind. rewrite log_routing_line by reflexivity. reflexivity.
Qed.

(** C1. The health-check path of the movies service is sent to the
    movies service whatever the flag, the percentage and the draws are;
    no draw is made and nothing is printed: the world is left as it
    was. *)
Theorem determine_target_health self w :
  _determine_target self "/api/movies/health" w
  = (Ok (movies_service_url self ++ "/api/movies/health"), w).
Proof. reflexivity. Qed.

(** C2. With gradual migration on, a path under [/api/movies] other
    than the health path, and a draw in 0..99: percentage 0 sends the
    request to the monolith and percentage 100 to the movies service.
    This holds in every world, hence at every trial. *)
Theorem determine_target_percent_0_100 self path w :
  gradual_migration self = true ->
  startswith path "/api/movies" = true ->
  path <> "/api/movies/health" ->
  0 <= draws w (drawn w) <= 99 ->
  (movies_migration_percent self = 0 ->
   fst (_determine_target self path w) = Ok (monolith_url self ++ path)) /\
  (movies_migration_percent self = 100 ->
   fst (_determine_target self path w) = Ok (movies_service_url self ++ path)).
Proof.
  intros Hgm Hpre Hne Hr.
  rewrite (determine_target_split self path w Hne Hpre Hgm). cbv zeta.
  split; intros ->.
  - destruct (Z.ltb_spec (draws w (drawn w)) 0); [lia | reflexivity].
  - destruct (Z.ltb_spec (draws w (drawn w)) 100); [reflexivity | lia].
Qed.

(** The same over any number of trials, when every draw is in 0..99. *)
Lemma trials_percent_0_100 self path n w :
  gradual_migration self = true ->
  startswith path "/api/movies" = true ->
  path <> "/api/movies/health" ->
  (forall i, 0 <= draws w i <= 99) ->
  (movies_migration_percent self = 0 ->
   fst (trials self path n w) = Ok (repeat (monolith_url self ++ path) n)) /\
  (movies_migration_percent self = 100 ->
   fst (trials self path n w) = Ok (repeat (movies_service_url self ++ path) n)).
Proof.
  intros Hgm Hpre Hne. revert w.
  induction n as [|n IH]; intros w Hr; [now split|].
  pose proof (determine_target_split self path w Hne Hpre Hgm) as Hstep.
  cbv zeta in Hstep. specialize (Hr (drawn w)) as Hr0.
  split; intros Hp; rewrite Hp in *;
    cbn [trials]; unfold bind at 1; rewrite Hstep.
  - destruct (Z.ltb_spec (draws w (drawn w)) 0); [lia|].
    unfold bind, ret.
    match goal with |- context [trials self path n ?w1] =>
      pose proof (IH w1 Hr) as [IH0 _]
    end.
    specialize (IH0 eq_refl).
    match goal with |- context [trials self path n ?w1] =>
      destruct (trials self path n w1) as [[l|e] w2]
    end; simpl in *; congruence.
  - destruct (Z.ltb_spec (draws w (drawn w)) 100); [|lia].
    unfold bind, ret.
    match goal with |- context [trials self path n ?w1] =>
      pose proof (IH w1 Hr) as [_ IH1]
    end.
    specialize (IH1 eq_refl).
    match goal with |- context [trials self path n ?w1] =>
      destruct (trials self path n w1) as [[l|e] w2]
    end; simpl in *; congruence.
Qed.

(** C3. With gradual migration off, every path under [/api/movies]
    other than the health path goes to the monolith; the percentage is
    not read, no draw is made. *)
Theorem determine_target_gradual_off self path w :
  gradual_migration self = false ->
  startswith path "/api/movies" = true ->
  path <> "/api/movies/health" ->
  _determine_target self path w = (Ok (monolith_url self ++ path), w).
Proof.
  intros Hgm Hpre Hne. unfold _determine_target.
  apply String.eqb_neq in Hne. now rewrite Hne, Hpre, Hgm.
Qed.

(** C4. A path that is not the health path and starts with neither
    [/api/movies] nor [/api/events] goes to the monolith. *)
Theorem determine_target_fallback self path w :
  path <> "/api/movies/health" ->
  startswith path "/api/movies" = false ->
  startswith path "/api/events" = false ->
  _determine_target self path w = (Ok (monolith_url self ++ path), w).
Proof.
  intros Hne Hm He. unfold _determine_target.
  apply String.eqb_neq in Hne. now rewrite Hne, Hm, He.
Qed.

(** C5. A path that starts with [/api/events] goes to the events
    service, with no draw.  Such a path is never the movies health
    path and never starts with [/api/movies]. *)
Theorem determine_target_events self path w :
  startswith path "/api/events" = true ->
  _determine_target self path w = (Ok (events_service_url self ++ path), w).
Proof.
  intros He. destruct (prefix_inv _ _ He) as [r ->].
  assert (Hh : String.eqb ("/api/events" ++ r) "/api/movies/health" = false)
    by reflexivity.
  assert (Hm : startswith ("/api/events" ++ r) "/api/movies" = false)
    by reflexivity.
  unfold _determine_target. now rewrite Hh, Hm, He.
Qed.

(** ** Instances *)

Lemma determine_target_percent_0_100_witness :
  fst (_determine_target (Samples.handler true 0 "GET" "/api/movies/42" [])
         "/api/movies/42" (Samples.world 57 [] Samples.refused))
  = Ok "http://monolith:8080/api/movies/42" /\
  fst (_determine_target (Samples.handler true 100 "GET" "/api/movies/42" [])
         "/api/movies/42" (Samples.world 57 [] Samples.refused))
  = Ok "http://movies-service:8081/api/movies/42".
Proof.
  split.
  - apply (determine_target_percent_0_100
             (Samples.handler true 0 "GET" "/api/movies/42" [])
             "/api/movies/42" (Samples.world 57 [] Samples.refused));
      [reflexivity | reflexivity | discriminate | simpl; lia | reflexivity].
  - apply (determine_target_percent_0_100
             (Samples.handler true 100 "GET" "/api/movies/42" [])
             "/api/movies/42" (Samples.world 57 [] Samples.refused));
      [reflexivity | reflexivity | discriminate | simpl; lia | reflexivity].
Defined.

Lemma determine_target_gradual_off_witness :
  _determine_target (Samples.handler false 70 "GET" "/api/movies" [])
    "/api/movies" (Samples.world 3 [] Samples.refused)
  = (Ok "http://monolith:8080/api/movies", Samples.world 3 [] Samples.refused).
Proof.
  apply (determine_target_gradual_off
           (Samples.handler false 70 "GET" "/api/movies" []) "/api/movies"
           (Samples.world 3 [] Samples.refused));
    [reflexivity | reflexivity | discriminate].
Defined.

Lemma determine_target_fallback_witness :
  _determine_target (Samples.handler true 100 "GET" "/api/users" [])
    "/api/users" (Samples.world 3 [] Samples.refused)
  = (Ok "http://monolith:8080/api/users", Samples.world 3 [] Samples.refused).
Proof.
  apply (determine_target_fallback
           (Samples.handler true 100 "GET" "/api/users" []) "/api/users"
           (Samples.world 3 [] Samples.refused));
    [discriminate | reflexivity | reflexivity].
Defined.

Lemma determine_target_events_witness :
  _determine_target (Samples.handler true 50 "POST" "/api/events/movie" [])
    "/api/events/movie" (Samples.world 3 [] Samples.refused)
  = (Ok "http://events-service:8082/api/events/movie",
     Samples.world 3 [] Samples.refused).
Proof.
  apply (determine_target_events
           (Samples.handler true 50 "POST" "/api/events/movie" [])
           "/api/events/movie" (Samples.world 3 [] Samples.refused)).
  reflexivity.
Defined.

End Routing.

(* ================================================================== *)
(** * The bridge: forwarding and relaying *)
(* ================================================================== *)

Module Bridge.
Import Py PyNotations Proxy ProxyTerms MoreTerms PyFacts.

#[local] Arguments in_list : simpl never.

(** ** What a computation leaves alone *)

Lemma keeps_ret {A B} (f : World -> B) (a : A) : keeps f (ret a).
Proof. intros w. reflexivity. Qed.

Lemma keeps_lift {A B} (f : World -> B) (r : result A) : keeps f (lift r).
Proof. intros w. reflexivity. Qed.

Lemma keeps_bind {A A' B} (f : World -> B) (c : M World A) (k : A -> M World A') :
  keeps f c -> (forall a, keeps f (k a)) -> keeps f (bind c k).
Proof.
  intros Hc Hk w. unfold bind. specialize (Hc w).
  destruct (c w) as [[a|e] w1]; simpl in *.
  - now rewrite Hk.
  - assumption.
Qed.

Lemma keeps_try_except {A B} (f : World -> B) (c : M World A) (h : exc -> M World A) :
  keeps f c -> (forall e, keeps f (h e)) -> keeps f (try_except c h).
Proof.
  intros Hc Hh w. unfold try_except. specialize (Hc w).
  destruct (c w) as [[a|e] w1]; simpl in *.
  - assumption.
  - now rewrite Hh.
Qed.

Lemma keeps_if {A B} (f : World -> B) (b : bool) (c1 c2 : M World A) :
  keeps f c1 -> keeps f c2 -> keeps f (if b then c1 else c2).
Proof. now destruct b. Qed.

Create HintDb keeps discriminated.
#[export] Hint Resolve keeps_ret keeps_lift keeps_bind keeps_try_except keeps_if : keeps.

Lemma print_keeps_outbound s : keeps outbound (print s).
Proof. intros w. reflexivity. Qed.

Lemma print_keeps_wire s : keeps wire (print s).
Proof. intros w. reflexivity. Qed.

Lemma emit_keeps_outbound e : keeps outbound (emit e).
Proof. intros w. reflexivity. Qed.

Lemma write_keeps_outbound e : keeps outbound (write e).
Proof. intros w. reflexivity. Qed.

Lemma log_request_keeps_outbound code : keeps outbound (log_request code).
Proof. intros w. reflexivity. Qed.

(** A read changes nothing but what is left to read. *)
Lemma rfile_read_rest n w : exists l, snd (rfile_read n w) = set_rfile l w.
Proof.
  unfold rfile_read.
  destruct (_ || _); [exists (rfile w); now destruct w|].
  destruct (n <? -1); [exists (rfile w); now destruct w|].
  destruct (_ <? n); [exists (rfile w); now destruct w|].
  destruct (read_fault w n); [exists (rfile w); now destruct w|].
  destruct (n =? -1); eexists; reflexivity.
Qed.

Lemma rfile_read_keeps_outbound n : keeps outbound (rfile_read n).
Proof. intros w. destruct (rfile_read_rest n w) as [l ->]. reflexivity. Qed.

Lemma rfile_read_keeps_wire n : keeps wire (rfile_read n).
Proof. intros w. destruct (rfile_read_rest n w) as [l ->]. reflexivity. Qed.

Lemma rfile_read_keeps_backend n : keeps backend (rfile_read n).
Proof. intros w. destruct (rfile_read_rest n w) as [l ->]. reflexivity. Qed.

#[export] Hint Resolve print_keeps_outbound print_keeps_wire emit_keeps_outbound
  write_keeps_outbound log_request_keeps_outbound
  rfile_read_keeps_outbound rfile_read_keeps_wire rfile_read_keeps_backend : keeps.

Lemma log_message_keeps_outbound s : keeps outbound (log_message s).
Proof. unfold log_message. auto with keeps. Qed.

Lemma log_message_keeps_wire s : keeps wire (log_message s).
Proof. unfold log_message. auto with keeps. Qed.

Lemma send_headers_keeps_outbound hs : keeps outbound (send_headers hs).
Proof.
  induction hs as [|[k v] hs IH]; simpl; auto with keeps.
Qed.

#[export] Hint Resolve log_message_keeps_outbound log_message_keeps_wire
  send_headers_keeps_outbound : keeps.

Lemma send_response_keeps_outbound st c hs ct :
  keeps outbound (_send_response st c hs ct).
Proof.
  unfold _send_response, self_send_response. destruct c; auto 12 with keeps.
Qed.

#[export] Hint Resolve send_response_keeps_outbound : keeps.

Lemma send_error_response_keeps_outbound st msg :
  keeps outbound (_send_error_response st msg).
Proof. unfold _send_error_response. auto with keeps. Qed.

#[export] Hint Resolve send_error_response_keeps_outbound : keeps.

(** Reading the body changes nothing but what is left to read. *)
Lemma read_body_rest self w r w1 :
  read_body self w = (r, w1) -> exists l, w1 = set_rfile l w.
Proof.
  assert (Hsame : w = set_rfile (rfile w) w) by now destruct w.
  unfold read_body.
  destruct (headers_get _ _) as [v|];
    [|intros H; inversion H; subst; eauto].
  destruct (truthy_str v); [|intros H; inversion H; subst; eauto].
  unfold bind, lift.
  destruct (int_of_str v) as [n|e]; [|intros H; inversion H; subst; eauto].
  destruct (rfile_read_rest n w) as [l Hl].
  destruct (rfile_read n w) as [[b|e] w2]; cbn [snd] in Hl;
    intros H; inversion H; subst; eauto.
Qed.

Lemma read_body_keeps_outbound self : keeps outbound (read_body self).
Proof.
  intros w. destruct (read_body self w) as [r w1] eqn:H.
  destruct (read_body_rest _ _ _ _ H) as [l ->]. reflexivity.
Qed.

Lemma read_body_keeps_wire self : keeps wire (read_body self).
Proof.
  intros w. destruct (read_body self w) as [r w1] eqn:H.
  destruct (read_body_rest _ _ _ _ H) as [l ->]. reflexivity.
Qed.

Lemma read_body_keeps_backend self : keeps backend (read_body self).
Proof.
  intros w. destruct (read_body self w) as [r w1] eqn:H.
  destruct (read_body_rest _ _ _ _ H) as [l ->]. reflexivity.
Qed.

(** ** What goes on the wire *)

Lemma set_wire_same w : set_wire (wire w) w = w.
Proof. now destruct w. Qed.

Lemma send_headers_wire hs w :
  send_headers hs w = (Ok tt, set_wire (wire w ++ map header_event (relayed hs)) w).
Proof.
  revert w. induction hs as [|[k v] hs IH]; intros w; simpl.
  - now rewrite app_nil_r, set_wire_same.
  - unfold bind. destruct (in_list (lower k) hop_by_hop_response); simpl.
    + apply IH.
    + rewrite IH. simpl. now rewrite <- app_assoc.
Qed.

#[local] Arguments send_headers : simpl never.

(** Runs one [_send_response] whose two writes go through, as [H1]
    and [H2] say. *)
Ltac run_response H1 H2 :=
  unfold bind, emit, write, ret, lift, log_request, print; simpl;
  rewrite send_headers_wire; simpl; rewrite H1; simpl; rewrite H2;
  rewrite <- ?app_assoc; reflexivity.

Lemma dict_mem_get {V} k (d : dict V) :
  dict_mem k d = true -> exists v, dict_get k d = Some v.
Proof.
  induction d as [|[k' v'] d IH]; simpl; [discriminate|].
  destruct (String.eqb k k'); simpl; eauto.
Qed.

Lemma dict_get_mem {V} k (d : dict V) :
  dict_mem k d = false -> dict_get k d = None.
Proof.
  induction d as [|[k' v'] d IH]; simpl; [reflexivity|].
  destruct (String.eqb k k'); simpl; [discriminate | assumption].
Qed.

(** [_send_response] written out, for a client that takes the two
    writes: the access line is printed, the calls are those of
    [response_events], and it returns. *)
Lemma send_response_run status content headers content_type w :
  takes_response w ->
  _send_response status content headers content_type w
  = (Ok tt, answered status (response_events status content headers content_type) w).
Proof.
  intros [H1 H2].
  unfold _send_response, self_send_response, response_events, chosen_content_type,
    answered, access_line.
  assert (Hloop : (if truthy_dict headers then send_headers (items headers) else ret tt)
                  = send_headers (items headers))
    by (destruct headers as [[|kv hs]|]; reflexivity).
  assert (Hmem : truthy_dict headers && dict_mem "Content-Type" (items headers)
                 = dict_mem "Content-Type" (items headers))
    by (destruct headers as [[|kv hs]|]; reflexivity).
  rewrite Hloop, Hmem. clear Hloop Hmem.
  destruct (truthy_opt_str content_type).
  - run_response H1 H2.
  - destruct (dict_mem "Content-Type" (items headers)) eqn:Hmem.
    + destruct (dict_mem_get _ _ Hmem) as [v Hv].
      unfold dict_subscript. rewrite Hv. run_response H1 H2.
    + rewrite (dict_get_mem _ _ Hmem).
      destruct content; run_response H1 H2.
Qed.

(** A write that fails makes [_send_response] raise what the write
    raised; the body is not written when the headers could not be. *)
Lemma send_response_raises status content headers content_type w e :
  sends w (sent w) = Raise e \/
  (sends w (sent w) = Ok tt /\ sends w (S (sent w)) = Raise e) ->
  fst (_send_response status content headers content_type w) = Raise e.
Proof.
  intros H.
  unfold _send_response, self_send_response.
  assert (Hloop : (if truthy_dict headers then send_headers (items headers) else ret tt)
                  = send_headers (items headers))
    by (destruct headers as [[|kv hs]|]; reflexivity).
  rewrite Hloop. clear Hloop.
  destruct (truthy_opt_str content_type);
    [|destruct (truthy_dict headers && dict_mem "Content-Type" (items headers)) eqn:Hmem;
      [|destruct content]].
  all: try (apply andb_prop in Hmem; destruct Hmem as [_ Hmem];
            destruct (dict_mem_get _ _ Hmem) as [v Hv];
            unfold dict_subscript; rewrite Hv).
  all: unfold bind, emit, write, ret, lift, log_request, print; simpl;
    rewrite send_headers_wire; simpl;
    destruct H as [H | [H1 H2]];
    [rewrite H; reflexivity | rewrite H1; simpl; rewrite H2; reflexivity].
Qed.

Lemma send_response_relayed response w :
  takes_response w ->
  _send_response (status_code response) (Bytes (content response))
    (Some (response_headers response)) None w
  = (Ok tt, answered (status_code response) (relayed_events response) w).
Proof. intros H. now rewrite send_response_run. Qed.

Lemma send_error_response_wire status message w :
  takes_response w ->
  _send_error_response status message w
  = (Ok tt, answered status (error_events status message) w).
Proof. intros H. unfold _send_error_response. now rewrite send_response_run. Qed.

(** ** The headers of the outbound request *)

Lemma dict_set_In {V} k v k0 v0 (d : dict V) :
  In (k, v) (dict_set k0 v0 d) -> (k, v) = (k0, v0) \/ In (k, v) d.
Proof.
  induction d as [|[k' v'] d IH]; simpl.
  - intros [H|[]]. now left.
  - destruct (String.eqb k0 k') eqn:E; simpl.
    + apply String.eqb_eq in E. subst k'. intros [H|H]; auto.
    + intros [H|H]; auto. destruct (IH H); auto.
Qed.

Lemma dict_get_set {V} k k0 v0 (d : dict V) :
  dict_get k (dict_set k0 v0 d) = if String.eqb k k0 then Some v0 else dict_get k d.
Proof.
  induction d as [|[k' v'] d IH]; simpl.
  - reflexivity.
  - destruct (String.eqb k0 k') eqn:E; simpl.
    + apply String.eqb_eq in E. subst k'. now destruct (String.eqb k k0).
    + rewrite IH. destruct (String.eqb k k') eqn:E'; [|reflexivity].
      apply String.eqb_eq in E'. subst k'.
      now rewrite String.eqb_sym, E.
Qed.

Lemma dict_get_app {V} k (d1 d2 : dict V) :
  dict_get k (d1 ++ d2)%list
  = match dict_get k d1 with Some v => Some v | None => dict_get k d2 end.
Proof.
  induction d1 as [|[k' v'] d1 IH]; simpl; [reflexivity|].
  now destruct (String.eqb k k').
Qed.

Lemma dict_mem_app {V} k (d1 d2 : dict V) :
  dict_mem k (d1 ++ d2)%list = dict_mem k d1 || dict_mem k d2.
Proof.
  induction d1 as [|[k' v'] d1 IH]; simpl; [reflexivity|].
  now rewrite IH, orb_assoc.
Qed.

Lemma dict_set_new {V} k v (d : dict V) :
  dict_mem k d = false -> dict_set k v d = (d ++ [(k, v)])%list.
Proof.
  induction d as [|[k' v'] d IH]; simpl; [reflexivity|].
  intros H. apply orb_false_elim in H. destruct H as [E H].
  rewrite E. now rewrite IH.
Qed.

(** Whatever the outbound dictionary holds was an inbound header,
    name and value as received, and is none of the three names. *)
Lemma copy_headers_In k v hs acc :
  In (k, v) (copy_headers hs acc) ->
  In (k, v) acc \/
  (In (k, v) hs /\ in_list (lower k) hop_by_hop_request = false).
Proof.
  revert acc. induction hs as [|[k' v'] hs IH]; intros acc H; simpl in *.
  - now left.
  - destruct (in_list (lower k') hop_by_hop_request) eqn:E; simpl in H.
    + destruct (IH _ H) as [|[? ?]]; auto.
    + destruct (IH _ H) as [H'|[? ?]]; auto.
      destruct (dict_set_In _ _ _ _ _ H') as [Heq|]; auto.
      inversion Heq; subst. auto.
Qed.

(** A name that is let through is forwarded with the value of its last
    occurrence. *)
Lemma copy_headers_get k hs acc :
  in_list (lower k) hop_by_hop_request = false ->
  dict_get k (copy_headers hs acc)
  = match dict_get k (List.rev hs) with
    | Some v => Some v
    | None => dict_get k acc
    end.
Proof.
  intros Hk. revert acc. induction hs as [|[k' v'] hs IH]; intros acc; simpl.
  - reflexivity.
  - rewrite dict_get_app. simpl.
    destruct (in_list (lower k') hop_by_hop_request) eqn:E; simpl; rewrite IH.
    + destruct (String.eqb k k') eqn:E'.
      * apply String.eqb_eq in E'. subst k'. congruence.
      * now destruct (dict_get k (List.rev hs)).
    + rewrite dict_get_set.
      destruct (dict_get k (List.rev hs)); [reflexivity|].
      now destruct (String.eqb k k').
Qed.

(** When no header name occurs twice, the outbound dictionary is the
    inbound list without the three names, in the order received. *)
Lemma copy_headers_distinct hs acc :
  NoDup (map fst hs) ->
  (forall k, In k (map fst hs) -> dict_mem k acc = false) ->
  copy_headers hs acc = (acc ++ forwarded hs)%list.
Proof.
  revert acc. induction hs as [|[k v] hs IH]; intros acc Hnd Hacc; simpl.
  - now rewrite app_nil_r.
  - inversion Hnd as [|? ? Hk Hnd']; subst.
    destruct (in_list (lower k) hop_by_hop_request) eqn:E; simpl.
    + apply IH; [assumption|]. intros k' Hk'. apply Hacc. now right.
    + rewrite IH; [| assumption |].
      * rewrite dict_set_new by (apply Hacc; now left).
        now rewrite <- app_assoc.
      * intros k' Hk'. rewrite dict_set_new by (apply Hacc; now left).
        rewrite dict_mem_app, (Hacc k') by now right. simpl.
        rewrite orb_false_r. apply String.eqb_neq. intros ->. contradiction.
Qed.

(** ** One relay *)

Lemma read_body_frame self w r w1 :
  read_body self w = (r, w1) ->
  outbound w1 = outbound w /\ wire w1 = wire w /\ backend w1 = backend w.
Proof.
  intros H. destruct (read_body_rest _ _ _ _ H) as [l ->]. auto.
Qed.

Lemma relay_body_raises self target_url w e w1 :
  read_body self w = (Raise e, w1) ->
  relay self target_url w = (Raise e, w1).
Proof. intros H. unfold relay. now rewrite (bind_raise _ _ _ _ _ H). Qed.

Lemma relay_backend_raises self target_url w body w1 e :
  read_body self w = (Ok body, w1) ->
  backend w (outbound_request self target_url body) = Raise e ->
  relay self target_url w
  = (Raise e, set_outbound (outbound w ++ [outbound_request self target_url body]) w1).
Proof.
  intros H Hb. destruct (read_body_frame _ _ _ _ H) as (Ho & _ & Hbk).
  unfold relay. rewrite (bind_ok _ _ _ _ _ H).
  unfold bind, requests_request. fold (outbound_request self target_url body).
  now rewrite Hbk, Hb, Ho.
Qed.

Lemma relay_backend_answers self target_url w body w1 response :
  read_body self w = (Ok body, w1) ->
  backend w (outbound_request self target_url body) = Ok response ->
  takes_response w ->
  relay self target_url w
  = (Ok tt,
     answered (status_code response) (relayed_events response)
       (set_outbound (outbound w ++ [outbound_request self target_url body]) w1)).
Proof.
  intros H Hb Hsends. destruct (read_body_rest _ _ _ _ H) as [l ->].
  unfold relay. rewrite (bind_ok _ _ _ _ _ H).
  unfold bind, requests_request. fold (outbound_request self target_url body).
  cbn [backend set_rfile]. rewrite Hb.
  now rewrite send_response_relayed.
Qed.

Lemma on_error_keeps_outbound target_url e : keeps outbound (on_error target_url e).
Proof. unfold on_error. auto 10 with keeps. Qed.

(** The requests [relay] makes: one, if the body could be read, and
    none otherwise. *)
Lemma relay_outbound self target_url w :
  outbound (snd (relay self target_url w))
  = match read_body self w with
    | (Ok body, _) => (outbound w ++ [outbound_request self target_url body])%list
    | (Raise _, _) => outbound w
    end.
Proof.
  unfold relay, bind.
  destruct (read_body self w) as [[body|e] w1] eqn:H;
    destruct (read_body_frame _ _ _ _ H) as (Ho & _ & _); [|exact Ho].
  unfold requests_request. fold (outbound_request self target_url body).
  destruct (backend w1 (outbound_request self target_url body)) as [response|e].
  - rewrite send_response_keeps_outbound. cbn. now rewrite Ho.
  - cbn. now rewrite Ho.
Qed.

(** The requests [_proxy_request] makes: one, if the body could be
    read, and none otherwise. *)
Lemma proxy_request_outbound self target_url w :
  outbound (snd (_proxy_request self target_url w))
  = match read_body self w with
    | (Ok body, _) => (outbound w ++ [outbound_request self target_url body])%list
    | (Raise _, _) => outbound w
    end.
Proof.
  rewrite <- relay_outbound. unfold _proxy_request, try_except.
  destruct (relay self target_url w) as [[u|e] w1]; [reflexivity|].
  now rewrite on_error_keeps_outbound.
Qed.

(** ** Failures *)

(** A backend that cannot be reached: [502], once, when the line to
    log holds no percent sign and the client takes the response. *)
Lemma proxy_request_bad_gateway self target_url w e w1 :
  relay self target_url w = (Raise e, w1) ->
  is_class RequestException e = true ->
  contains_char percent (target_url ++ exc_str e) = false ->
  takes_response w1 ->
  _proxy_request self target_url w
  = (Ok tt,
     answered 502 (error_events 502 ("Bad Gateway: " ++ exc_str e))
       (set_stdout
          (stdout w1 ++ ["[Proxy] Error proxying request to " ++ target_url ++ ": "
                         ++ exc_str e]) w1)).
Proof.
  intros H Hc Hp Hsends. unfold _proxy_request, try_except. rewrite H.
  unfold on_error. rewrite Hc. unfold bind at 1. unfold log_message, bind, lift.
  rewrite percent_format_plain.
  - unfold print. now rewrite send_error_response_wire.
  - rewrite contains_char_app in Hp. apply orb_false_elim in Hp.
    destruct Hp as [Hu He]. rewrite !contains_char_app.
    now rewrite Hu, He.
Qed.

(** Any other failure: [500], once, when the line to log holds no
    percent sign and the client takes the response. *)
Lemma proxy_request_internal_error self target_url w e w1 :
  relay self target_url w = (Raise e, w1) ->
  is_class RequestException e = false ->
  contains_char percent (exc_str e) = false ->
  takes_response w1 ->
  _proxy_request self target_url w
  = (Ok tt,
     answered 500 (error_events 500 "Internal Server Error")
       (set_stdout (stdout w1 ++ ["[Proxy] Unexpected error: " ++ exc_str e]) w1)).
Proof.
  intros H Hc Hp Hsends. unfold _proxy_request, try_except. rewrite H.
  unfold on_error. rewrite Hc. unfold bind at 1. unfold log_message, bind, lift.
  rewrite percent_format_plain.
  - unfold print. now rewrite send_error_response_wire.
  - rewrite contains_char_app. now rewrite Hp.
Qed.

(** When the line to log cannot be formatted, the exception raised by
    [log_message] leaves [_proxy_request]: the [except] clause is left
    before it sends anything. *)
Lemma proxy_request_log_raises self target_url w e w1 e' :
  relay self target_url w = (Raise e, w1) ->
  percent_format
    (if is_class RequestException e
     then "Error proxying request to " ++ target_url ++ ": " ++ exc_str e
     else "Unexpected error: " ++ exc_str e) = Raise e' ->
  _proxy_request self target_url w = (Raise e', w1).
Proof.
  intros H Hf. unfold _proxy_request, try_except. rewrite H.
  unfold on_error. destruct (is_class RequestException e);
    unfold bind at 1; unfold log_message, bind, lift; now rewrite Hf.
Qed.

(** ** The claims on headers and on failures *)

(** No header the loop of [_send_response] passes on is a
    [Content-Length]. *)
Lemma relayed_not_content_length kv hs :
  In kv (relayed hs) -> lower (fst kv) <> "content-length".
Proof.
  intros Hin Hk. apply filter_In in Hin. destruct Hin as [_ Hkeep].
  rewrite Hk in Hkeep. discriminate Hkeep.
Qed.

(** A dictionary holds a key once. *)
Lemma dict_set_keys {V} k (v : V) d x :
  In x (map fst (dict_set k v d)) -> x = k \/ In x (map fst d).
Proof.
  induction d as [|[k' v'] d IH]; simpl.
  - intros [<-|[]]. now left.
  - destruct (String.eqb k k'); simpl.
    + intros [<-|H]; auto.
    + intros [<-|H]; auto. destruct (IH H); auto.
Qed.

Lemma dict_set_distinct {V} k (v : V) d :
  NoDup (map fst d) -> NoDup (map fst (dict_set k v d)).
Proof.
  induction d as [|[k' v'] d IH]; simpl; intros Hnd.
  - constructor; [intros [] | constructor].
  - inversion Hnd as [|? ? Hk Hd]; subst.
    destruct (String.eqb k k') eqn:E; simpl.
    + now constructor.
    + constructor; [|now apply IH].
      intros Hin. destruct (dict_set_keys _ _ _ _ Hin) as [->|]; [|contradiction].
      now rewrite String.eqb_refl in E.
Qed.

Lemma copy_headers_keys hs acc :
  NoDup (map fst acc) -> NoDup (map fst (copy_headers hs acc)).
Proof.
  revert acc. induction hs as [|[k v] hs IH]; intros acc Hnd; simpl; [assumption|].
  destruct (in_list (lower k) hop_by_hop_request); simpl; auto using dict_set_distinct.
Qed.

(** A dictionary without a key that is [Content-Type] in some letter
    case has no key [Content-Type]. *)
Lemma dict_get_no_content_type (hs : dict string) :
  (forall k v, In (k, v) hs -> lower k <> "content-type") ->
  dict_get "Content-Type" hs = None.
Proof.
  induction hs as [|[k v] hs IH]; intros H; [reflexivity|].
  cbn [dict_get]. destruct (String.eqb "Content-Type" k) eqn:E.
  - apply String.eqb_eq in E. subst k.
    now destruct (H "Content-Type" v (or_introl eq_refl)).
  - apply IH. intros k' v' Hin. apply (H k' v'). now right.
Qed.

(** C6 (as amended).  A relay whose backend answers and whose client
    takes the response makes one outbound request and sends one
    response.
    - The outbound headers hold no [Host], [Connection] or
      [Content-Length], whatever the case of the name; each of them is
      an inbound header, name and value as received; a name that is
      let through carries the value of its last inbound occurrence; no
      name is there twice; and when no inbound name occurs twice they
      are the inbound headers without those three, in order.
      [Transfer-Encoding] is let through.
    - The response is: the status of the backend; one [Content-Type]
      (the backend's when its headers hold the key [Content-Type],
      and [application/json] when none of its headers is a
      content type in any letter case); the backend headers whose name
      is none of [Content-Type], [Content-Length] and
      [Transfer-Encoding], as received and in order ([Host] and
      [Connection] among them); one [Content-Length]; the body.  Every
      [Content-Length] sent gives the number of bytes of the body. *)
Theorem relay_headers self target_url w body w1 response :
  read_body self w = (Ok body, w1) ->
  backend w (outbound_request self target_url body) = Ok response ->
  sends w (sent w) = Ok tt ->
  sends w (S (sent w)) = Ok tt ->
  let outgoing := request_headers (outbound_request self target_url body) in
  exists w' content_type,
    let events :=
      ([send_response (status_code response);
        send_header "Content-Type" content_type]
       ++ map (fun kv => send_header (fst kv) (snd kv))
            (filter (fun kv => negb (in_list (lower (fst kv))
                                       ["content-type"; "content-length"; "transfer-encoding"]))
               (response_headers response))
       ++ [send_header "Content-Length"
             (str_of_Z (Z.of_nat (List.length (content response))));
           end_headers;
           wfile_write (content response)])%list in
    _proxy_request self target_url w = (Ok tt, w') /\
    outbound w' = (outbound w ++ [outbound_request self target_url body])%list /\
    (forall k v, In (k, v) outgoing ->
       In (k, v) (headers self) /\
       in_list (lower k) ["host"; "connection"; "content-length"] = false) /\
    (forall k, in_list (lower k) ["host"; "connection"; "content-length"] = false ->
       dict_get k outgoing = dict_get k (List.rev (headers self))) /\
    NoDup (map fst outgoing) /\
    (NoDup (map fst (headers self)) ->
       outgoing = filter (fun kv => negb (in_list (lower (fst kv))
                                            ["host"; "connection"; "content-length"]))
                    (headers self)) /\
    wire w' = (wire w ++ events)%list /\
    (forall v, dict_get "Content-Type" (response_headers response) = Some v ->
       content_type = v) /\
    ((forall k v, In (k, v) (response_headers response) -> lower k <> "content-type") ->
       content_type = "application/json") /\
    (forall k v, In (send_header k v) events -> lower k = "content-length" ->
       v = str_of_Z (Z.of_nat (List.length (content response)))).
Proof.
  intros H Hb H1 H2 outgoing.
  exists (answered (status_code response) (relayed_events response)
            (set_outbound (outbound w ++ [outbound_request self target_url body]) w1)),
    (relayed_content_type (response_headers response)).
  destruct (read_body_frame _ _ _ _ H) as (_ & Hw & _).
  intros events.
  split; [|split; [|split; [|split; [|split; [|split; [|split; [|split; [|split]]]]]]]].
  - unfold _proxy_request, try_except.
    now rewrite (relay_backend_answers _ _ _ _ _ _ H Hb (conj H1 H2)).
  - reflexivity.
  - intros k v Hin. unfold outgoing in Hin. simpl in Hin.
    destruct (copy_headers_In _ _ _ _ Hin) as [[]|Hkv]. exact Hkv.
  - intros k Hk. unfold outgoing. simpl.
    rewrite (copy_headers_get k (headers self) [] Hk).
    now destruct (dict_get k (List.rev (headers self))).
  - unfold outgoing. simpl. apply copy_headers_keys. constructor.
  - intros Hnd. unfold outgoing. simpl.
    now rewrite (copy_headers_distinct (headers self) [] Hnd).
  - cbn [answered wire set_sent set_wire set_stdout set_outbound]. now rewrite Hw.
  - intros v Hv. unfold relayed_content_type. now rewrite Hv.
  - intros Hnone. unfold relayed_content_type.
    now rewrite (dict_get_no_content_type _ Hnone).
  - intros k v Hin Hk. unfold events in Hin.
    destruct Hin as [Hin|[Hin|Hin]]; [discriminate Hin| |].
    + inversion Hin; subst k. discriminate Hk.
    + apply in_app_or in Hin. destruct Hin as [[]|Hin].
      apply in_app_or in Hin. destruct Hin as [Hin|Hin].
      * apply in_map_iff in Hin. destruct Hin as (kv & Hkv & Hin).
        inversion Hkv; subst k.
        now destruct (relayed_not_content_length kv _ Hin).
      * destruct Hin as [Hin|[Hin|[Hin|[]]]]; try discriminate Hin.
        now inversion Hin.
Qed.

Lemma relay_headers_witness :
  exists w',
    _proxy_request Samples.post_users "http://monolith:8080/api/users"
      (Samples.world 0 [x68; x69] (Ok Samples.created)) = (Ok tt, w') /\
    map request_headers (outbound w')
    = [[("X-Trace", "abc"); ("Transfer-Encoding", "chunked")]] /\
    wire w'
    = [send_response 201;
       send_header "Content-Type" "text/html";
       send_header "Connection" "close";
       send_header "X-Backend" "monolith";
       send_header "Content-Length" "3";
       end_headers;
       wfile_write [x7b; x7d; x0a]].
Proof.
  destruct (relay_headers Samples.post_users "http://monolith:8080/api/users"
              (Samples.world 0 [x68; x69] (Ok Samples.created))
              (Some [x68; x69])
              (set_rfile [] (Samples.world 0 [x68; x69] (Ok Samples.created)))
              Samples.created eq_refl eq_refl eq_refl eq_refl)
    as (w' & content_type & Hrun & Hout & _ & _ & _ & _ & Hwire & Htype & _).
  exists w'. split; [exact Hrun|]. split.
  - rewrite Hout. reflexivity.
  - rewrite Hwire, (Htype "text/html" eq_refl). reflexivity.
Defined.

(** C6 as the specification states it fails: [Transfer-Encoding] goes
    out with the request as it came in, and the [Connection] header of
    the backend goes back to the client as it came in. *)
Lemma hop_by_hop_copied :
  exists w' r,
    _proxy_request Samples.post_users "http://monolith:8080/api/users"
      (Samples.world 0 [x68; x69] (Ok Samples.created)) = (Ok tt, w') /\
    outbound w' = [r] /\
    In ("Transfer-Encoding", "chunked") (headers Samples.post_users) /\
    In ("Transfer-Encoding", "chunked") (request_headers r) /\
    In ("Connection", "close") (response_headers Samples.created) /\
    In (send_header "Connection" "close") (wire w').
Proof.
  exists (answered 201 (relayed_events Samples.created)
            (set_outbound
               [outbound_request Samples.post_users "http://monolith:8080/api/users"
                  (Some [x68; x69])]
               (set_rfile [] (Samples.world 0 [x68; x69] (Ok Samples.created))))),
    (outbound_request Samples.post_users "http://monolith:8080/api/users"
       (Some [x68; x69])).
  split.
  - unfold _proxy_request, try_except.
    now rewrite (relay_backend_answers Samples.post_users "http://monolith:8080/api/users"
                   (Samples.world 0 [x68; x69] (Ok Samples.created)) (Some [x68; x69])
                   (set_rfile [] (Samples.world 0 [x68; x69] (Ok Samples.created)))
                   Samples.created eq_refl eq_refl (conj eq_refl eq_refl)).
  - split; [reflexivity|]. simpl. intuition.
Qed.

(** C7 fails on this input.  The monolith refuses the connection while
    the path holds an escaped character: the line to log is not a
    valid format, [log_message] raises inside the [except] clause, and
    the exception leaves the handler before any response is sent. *)
Theorem handle_request_percent_escapes :
  let w := Samples.world 0 [] Samples.refused in
  fst (_handle_request Samples.get_escaped w) = Raise not_enough_arguments /\
  wire (snd (_handle_request Samples.get_escaped w)) = [] /\
  map url (outbound (snd (_handle_request Samples.get_escaped w)))
  = ["http://monolith:8080/api/users?name=a%20b"].
Proof. repeat split; vm_compute; reflexivity. Qed.

(** The same request with the space left out of the query is answered
    with [502]. *)
Example handle_request_refused :
  wire (snd (_handle_request (Samples.handler false 0 "GET" "/api/users?name=ab" [])
               (Samples.world 0 [] Samples.refused)))
  = error_events 502 "Bad Gateway: Connection refused".
Proof. vm_compute. reflexivity. Qed.

End Bridge.

(* ================================================================== *)
(** * The request handler *)
(* ================================================================== *)

Module Handler.
Import Py PyNotations Proxy ProxyTerms MoreTerms PyFacts Routing Bridge.

(** [_determine_target] returns, and what it returns is one of the
    three base URLs followed by the path. *)
Lemma determine_target_returns self path w :
  exists base w',
    _determine_target self path w = (Ok (base ++ path), w') /\
    In base [monolith_url self; movies_service_url self; events_service_url self].
Proof.
  destruct (String.eqb path "/api/movies/health") eqn:Hh.
  - apply String.eqb_eq in Hh. subst path.
    exists (movies_service_url self), w. simpl. auto.
  - destruct (startswith path "/api/movies") eqn:Hm.
    + destruct (gradual_migration self) eqn:Hg.
      * apply String.eqb_neq in Hh.
        rewrite (determine_target_split self path w Hh Hm Hg). cbv zeta.
        destruct (draws w (drawn w) <? movies_migration_percent self);
          eexists; eexists; (split; [reflexivity|]); simpl; auto.
      * unfold _determine_target. rewrite Hh, Hm, Hg.
        eexists; eexists; (split; [reflexivity|]); simpl; auto.
    + unfold _determine_target. rewrite Hh, Hm.
      destruct (startswith path "/api/events");
        eexists; eexists; (split; [reflexivity|]); simpl; auto.
Qed.

(** With no variable set, [__init__] builds the handler the samples
    start from. *)
Example init_defaults :
  __init__ (fun _ => None) "GET" "/api/users" []
  = Ok (Samples.handler false 0 "GET" "/api/users" []).
Proof. reflexivity. Qed.

(** The liveness path is answered at once and no backend is asked;
    the library prints its line for the response. *)
Example handle_request_health :
  _handle_request (Samples.handler true 50 "GET" "/health" [])
    (Samples.asked "GET /health HTTP/1.1" (Samples.world 7 [] Samples.refused))
  = (Ok tt,
     set_sent 2
       (set_wire
          [send_response 200;
           send_header "Content-Type" "text/plain";
           send_header "Content-Length" "30";
           end_headers;
           wfile_write (encode_utf8 "Strangler Fig Proxy is healthy")]
          (set_stdout
             ["[Proxy] " ++ quote ++ "GET /health HTTP/1.1" ++ quote ++ " 200 -"]
             (Samples.asked "GET /health HTTP/1.1"
                (Samples.world 7 [] Samples.refused))))).
Proof. vm_compute. reflexivity. Qed.

(** A client that is gone before the answer of the backend is
    written: the write of the headers raises inside the [try], the
    second [except] clause starts a second response, and the exception
    of its write leaves the handler. *)
Example handle_request_hung_up :
  let w := Samples.hung_up (Samples.world 0 [] (Ok Samples.created)) in
  fst (_handle_request (Samples.handler false 0 "GET" "/api/users" []) w)
  = Raise (Exc OSError "[Errno 32] Broken pipe") /\
  filter is_send_response
    (wire (snd (_handle_request (Samples.handler false 0 "GET" "/api/users" []) w)))
  = [send_response 201; send_response 500].
Proof. split; vm_compute; reflexivity. Qed.

(** A [Content-Length] that fits the reader but no [bytes] object:
    [500], and the backend is not asked. *)
Example handle_request_large_length :
  let self := Samples.handler false 0 "POST" "/api/users"
                [("Content-Length", "9223372036854775807")] in
  let w := Samples.asked "POST /api/users HTTP/1.1"
             (Samples.world 0 [x68] (Ok Samples.created)) in
  wire (snd (_handle_request self w)) = error_events 500 "Internal Server Error" /\
  outbound (snd (_handle_request self w)) = [] /\
  stdout (snd (_handle_request self w))
  = ["[Proxy] Unexpected error: byte string is too large";
     "[Proxy] " ++ quote ++ "POST /api/users HTTP/1.1" ++ quote ++ " 500 -"].
Proof. repeat split; vm_compute; reflexivity. Qed.

(** A [Content-Length] no reader takes: [500], and the backend is not
    asked. *)
Example handle_request_huge_length :
  let self := Samples.handler false 0 "POST" "/api/users"
                [("Content-Length", "9223372036854775808")] in
  let w := Samples.asked "POST /api/users HTTP/1.1"
             (Samples.world 0 [x68] (Ok Samples.created)) in
  wire (snd (_handle_request self w)) = error_events 500 "Internal Server Error" /\
  outbound (snd (_handle_request self w)) = [] /\
  stdout (snd (_handle_request self w))
  = ["[Proxy] Unexpected error: cannot fit 'int' into an index-sized integer";
     "[Proxy] " ++ quote ++ "POST /api/users HTTP/1.1" ++ quote ++ " 500 -"].
Proof. repeat split; vm_compute; reflexivity. Qed.

(** A [Content-Length] that is no number: [500]. *)
Example handle_request_bad_length :
  wire (snd (_handle_request
               (Samples.handler false 0 "POST" "/api/users" [("content-length", "two")])
               (Samples.world 0 [] Samples.refused)))
  = error_events 500 "Internal Server Error".
Proof. vm_compute. reflexivity. Qed.

(** C9.  [_determine_target] is total: for every handler and world it
    returns one URL, a base URL followed by the path.  The URL is not
    empty as soon as the path is not (a request line always carries
    one) or no base URL is; the handler then goes on to
    [_proxy_request] and never answers [404 Not Found]. *)
Theorem determine_target_total self w :
  path self <> "" \/
  (monolith_url self <> "" /\ movies_service_url self <> "" /\
   events_service_url self <> "") ->
  exists base w',
    _determine_target self (path self) w = (Ok (base ++ path self), w') /\
    In base [monolith_url self; movies_service_url self; events_service_url self] /\
    base ++ path self <> "" /\
    (path self <> "/health" ->
     _handle_request self w = _proxy_request self (base ++ path self) w').
Proof.
  intros Hne.
  destruct (determine_target_returns self (path self) w) as (base & w' & Hrun & Hin).
  assert (Hurl : base ++ path self <> "").
  { destruct Hne as [Hp|(H1 & H2 & H3)].
    - now apply append_nonempty_r.
    - destruct base as [|c base]; [|discriminate].
      simpl in Hin. destruct Hin as [E|[E|[E|[]]]]; contradiction. }
  exists base, w'. repeat split; try assumption.
  intros Hh. unfold _handle_request.
  apply String.eqb_neq in Hh. rewrite Hh.
  rewrite (bind_ok _ _ _ _ _ Hrun).
  apply truthy_str_iff in Hurl. now rewrite Hurl.
Qed.

Lemma determine_target_total_witness :
  exists base w',
    _determine_target (Samples.handler true 30 "GET" "/api/movies/7" [])
      "/api/movies/7" (Samples.world 12 [] Samples.refused)
    = (Ok (base ++ "/api/movies/7"), w') /\
    base ++ "/api/movies/7" <> "".
Proof.
  destruct (determine_target_total
              (Samples.handler true 30 "GET" "/api/movies/7" [])
              (Samples.world 12 [] Samples.refused))
    as (base & w' & Hrun & _ & Hne & _).
  - left. simpl. discriminate.
  - exists base, w'. split; [exact Hrun | exact Hne].
Defined.

(** ** The method *)

Lemma do_method_handled m :
  In m handled -> do_method m = Some _handle_request.
Proof.
  intros [<-|[<-|[<-|[<-|[]]]]]; reflexivity.
Qed.

(** The URLs [_handle_request] asks [requests] for do not depend on
    the method. *)
Lemma handle_request_urls m self w :
  map url (outbound (snd (_handle_request (with_command m self) w)))
  = map url (outbound (snd (_handle_request self w))).
Proof.
  unfold _handle_request. cbn [path with_command].
  destruct (String.eqb (path self) "/health"); [reflexivity|].
  unfold bind.
  change (_determine_target (with_command m self) (path self) w)
    with (_determine_target self (path self) w).
  destruct (_determine_target self (path self) w) as [[target_url|e] w1];
    [|reflexivity].
  destruct (negb (truthy_str target_url)); [reflexivity|].
  rewrite !proxy_request_outbound.
  change (read_body (with_command m self) w1) with (read_body self w1).
  destruct (read_body self w1) as [[body|e] w2]; [|reflexivity].
  now rewrite !map_app.
Qed.

(** C10.  Two requests made with handled methods, alike in everything
    else and served in the same world (the same configuration, the
    same draws): [_determine_target] computes the same, and the methods
    that serve them ask [requests] for the same URLs. *)
Theorem routing_ignores_method self m1 m2 w :
  In m1 handled -> In m2 handled ->
  exists do_m1 do_m2,
    do_method m1 = Some do_m1 /\ do_method m2 = Some do_m2 /\
    _determine_target (with_command m1 self) (path self) w
    = _determine_target (with_command m2 self) (path self) w /\
    map url (outbound (snd (do_m1 (with_command m1 self) w)))
    = map url (outbound (snd (do_m2 (with_command m2 self) w))).
Proof.
  intros H1 H2. exists _handle_request, _handle_request.
  repeat split; try now apply do_method_handled.
  now rewrite !handle_request_urls.
Qed.

Lemma routing_ignores_method_witness :
  exists do_m1 do_m2,
    do_method "GET" = Some do_m1 /\ do_method "DELETE" = Some do_m2 /\
    map url (outbound (snd (do_m1
      (with_command "GET" (Samples.handler true 50 "" "/api/movies/7" []))
      (Samples.world 12 [] Samples.refused))))
    = map url (outbound (snd (do_m2
      (with_command "DELETE" (Samples.handler true 50 "" "/api/movies/7" []))
      (Samples.world 12 [] Samples.refused)))).
Proof.
  destruct (routing_ignores_method
              (Samples.handler true 50 "" "/api/movies/7" []) "GET" "DELETE"
              (Samples.world 12 [] Samples.refused))
    as (do_m1 & do_m2 & E1 & E2 & _ & Hurls).
  - simpl. auto.
  - simpl. auto.
  - exists do_m1, do_m2. auto.
Defined.

End Handler.

(* ================================================================== *)
(** * The event views *)
(* ================================================================== *)

Module EventViews.
Import Py PyNotations Events EventTerms PyFacts.

(** ** The check of the required fields *)

Lemma first_missing_object fields d :
  first_missing fields (JObj d) = Ok (find (fun f => negb (dict_mem f d)) fields).
Proof.
  induction fields as [|f fields IH]; [reflexivity|].
  cbn [first_missing find contains].
  destruct (dict_mem f d); simpl; [exact IH | reflexivity].
Qed.

#[local] Arguments first_missing : simpl never.

Lemma find_none {A} (p : A -> bool) l :
  (forall x, In x l -> p x = false) -> find p l = None.
Proof.
  induction l as [|a l IH]; intros H; simpl; [reflexivity|].
  rewrite (H a) by now left. apply IH. intros x Hx. apply H. now right.
Qed.

Lemma find_only (p : string -> bool) l x :
  In x l -> p x = true ->
  (forall y, In y l -> y <> x -> p y = false) ->
  find p l = Some x.
Proof.
  induction l as [|a l IH]; intros Hin Hx Hothers; simpl; [contradiction|].
  destruct (string_dec a x) as [->|Hne].
  - now rewrite Hx.
  - rewrite (Hothers a) by (auto; now left).
    apply IH; [| assumption |].
    + destruct Hin as [->|]; [contradiction | assumption].
    + intros y Hy. apply Hothers. now right.
Qed.

Lemma dict_mem_truthy k d : dict_mem k d = true -> truthy (JObj d) = true.
Proof. now destruct d. Qed.

Lemma subscript_present k d :
  dict_mem k d = true -> exists v, dict_get k d = Some v /\ subscript (JObj d) k = Ok v.
Proof.
  intros H. destruct (Bridge.dict_mem_get _ _ H) as [v Hv].
  exists v. split; [assumption|]. unfold subscript, dict_subscript. now rewrite Hv.
Qed.

(** Every category asks for two fields at least, so a body that lacks
    only one of them is not empty. *)
Lemma another_field c f :
  In f (required c) -> exists g, In g (required c) /\ g <> f.
Proof.
  intros _. destruct (required c) as [|a [|b l]] eqn:E.
  - destruct c; discriminate.
  - destruct c; discriminate.
  - assert (Hab : a <> b) by (destruct c; inversion E; discriminate).
    destruct (string_dec a f) as [->|Hne].
    + exists b. split; [simpl; auto | congruence].
    + exists a. split; [simpl; auto | assumption].
Qed.

(** ** What a view answers *)

Section Answers.

Variable float_repr : PrimFloat.float -> string.

(** One required field is missing, the others are there: [400], the
    field is named, and the world is left as it was. *)
Lemma missing_field c request d w f :
  get_json request = Ok (JObj d) ->
  In f (required c) ->
  dict_mem f d = false ->
  (forall g, In g (required c) -> g <> f -> dict_mem g d = true) ->
  view float_repr c request w
  = (Ok (jsonify [("error", JStr ("Missing required field: " ++ f))], 400), w).
Proof.
  intros Hjson Hf Hmiss Hothers.
  assert (Hd : truthy (JObj d) = true).
  { destruct (another_field c f Hf) as (g & Hg & Hgf).
    exact (dict_mem_truthy g d (Hothers g Hg Hgf)). }
  assert (Hfm : first_missing (required c) (JObj d) = Ok (Some f)).
  { rewrite first_missing_object. f_equal. apply find_only.
    - assumption.
    - now rewrite Hmiss.
    - intros g Hg Hgf. now rewrite (Hothers g Hg Hgf). }
  destruct c; unfold view, required in *;
    [unfold create_movie_event | unfold create_user_event | unfold create_payment_event];
    unfold try_except, bind, lift; rewrite Hjson, Hd; cbn [negb];
    cbv zeta; rewrite Hfm; reflexivity.
Qed.

(** The fields a view reads are there when all required fields are. *)
Ltac read_field Hall d k v Hv Hs :=
  let H := fresh in
  assert (H : dict_mem k d = true) by (apply Hall; simpl; auto 10);
  destruct (subscript_present k d H) as (v & Hv & Hs); clear H.

(** Runs a view from the hand-over to the producer on, in a world
    whose broker takes the record. *)
Ltac publish Hpub w :=
  unfold uuid4, utcnow_isoformat, producer_send, future_get, lift, logger_info, ret;
  cbn [broker set_uuids];
  match goal with
  | |- context [broker w ?r] =>
    let md := fresh "md" in
    let Hmd := fresh "Hmd" in
    destruct (Hpub r eq_refl) as [md Hmd]; rewrite Hmd
  end.

(** Every required field is there and the broker takes the record:
    [201], the identifier starts with the category and the entity id,
    and one record was handed to the producer. *)
Lemma all_fields c request d w :
  get_json request = Ok (JObj d) ->
  (forall f, In f (required c) -> dict_mem f d = true) ->
  (forall r, topic r = topic_of c -> exists md, broker w r = Ok md) ->
  exists entity suffix timestamp md r w',
    dict_get (entity_field c) d = Some entity /\
    view float_repr c request w
    = (Ok (jsonify
             [("status", JStr "success");
              ("partition", JInt (partition md));
              ("offset", JInt (offset md));
              ("event",
               JObj [("id", JStr (category_name c ++ "-" ++ str float_repr entity
                                  ++ "-" ++ suffix));
                     ("type", JStr (category_name c));
                     ("timestamp", timestamp);
                     ("payload", JObj d)])], 201), w') /\
    produced w' = (produced w ++ [r])%list /\
    topic r = topic_of c.
Proof.
  intros Hjson Hall Hpub.
  assert (Hd : truthy (JObj d) = true).
  { apply (dict_mem_truthy (entity_field c)). apply Hall. destruct c; simpl; auto. }
  assert (Hfm : first_missing (required c) (JObj d) = Ok None).
  { rewrite first_missing_object. f_equal. apply find_none.
    intros f Hf. now rewrite (Hall f Hf). }
  destruct c; unfold view, required in *.
  - read_field Hall d "movie_id" movie_id Hid Hsid.
    read_field Hall d "action" action Hact Hsact.
    unfold create_movie_event, try_except, bind, lift.
    rewrite Hjson, Hd. cbn [negb]. cbv zeta. rewrite Hfm, Hsid, Hsact.
    publish Hpub w.
    do 6 eexists. split; [exact Hid|]. split; [reflexivity|]. split; reflexivity.
  - read_field Hall d "user_id" user_id Hid Hsid.
    read_field Hall d "action" action Hact Hsact.
    read_field Hall d "timestamp" timestamp Hts Hsts.
    unfold create_user_event, try_except, bind, lift.
    rewrite Hjson, Hd. cbn [negb]. cbv zeta. rewrite Hfm, Hsid, Hsact, Hsts.
    publish Hpub w.
    do 6 eexists. split; [exact Hid|]. split; [reflexivity|]. split; reflexivity.
  - read_field Hall d "payment_id" payment_id Hid Hsid.
    read_field Hall d "status" status Hst Hsst.
    read_field Hall d "timestamp" timestamp Hts Hsts.
    read_field Hall d "user_id" user_id Hu Hsu.
    unfold create_payment_event, try_except, bind, lift.
    rewrite Hjson, Hd. cbn [negb]. cbv zeta. rewrite Hfm, Hsid, Hsst, Hsts, Hsu.
    publish Hpub w.
    do 6 eexists. split; [exact Hid|]. split; [reflexivity|]. split; reflexivity.
Qed.

(** C8.  A request whose body is the JSON object [d], sent to the view
    of category [c].
    - If every required field of [c] is a key of [d] and the broker
      takes the record, the view answers [201]; the identifier of the
      event is the category, a dash, the entity id, a dash, and a
      suffix; one record was handed to the producer.
    - If one required field is no key of [d] and the others are, the
      view answers [400] with [Missing required field: ] and the name
      of that field, and leaves the world as it was: nothing was
      handed to the producer. *)
Theorem create_event_answers c request d w :
  get_json request = Ok (JObj d) ->
  ((forall f, In f (required c) -> dict_mem f d = true) ->
   (forall r, topic r = topic_of c -> exists md, broker w r = Ok md) ->
   exists entity suffix timestamp md r w',
     dict_get (entity_field c) d = Some entity /\
     view float_repr c request w
     = (Ok (jsonify
              [("status", JStr "success");
               ("partition", JInt (partition md));
               ("offset", JInt (offset md));
               ("event",
                JObj [("id", JStr (category_name c ++ "-" ++ str float_repr entity
                                   ++ "-" ++ suffix));
                      ("type", JStr (category_name c));
                      ("timestamp", timestamp);
                      ("payload", JObj d)])], 201), w') /\
     produced w' = (produced w ++ [r])%list /\
     topic r = topic_of c) /\
  (forall f,
     In f (required c) ->
     dict_mem f d = false ->
     (forall g, In g (required c) -> g <> f -> dict_mem g d = true) ->
     view float_repr c request w
     = (Ok (jsonify [("error", JStr ("Missing required field: " ++ f))], 400), w)).
Proof.
  intros Hjson. split.
  - intros Hall Hpub. exact (all_fields c request d w Hjson Hall Hpub).
  - intros f Hf Hmiss Hothers.
    exact (missing_field c request d w f Hjson Hf Hmiss Hothers).
Qed.

End Answers.

Lemma create_event_answers_witness :
  (exists w',
     create_movie_event Samples.no_float (Samples.posted Samples.movie_viewed)
       Samples.events_world
     = (Ok (jsonify
              [("status", JStr "success");
               ("partition", JInt 0);
               ("offset", JInt 41);
               ("event",
                JObj [("id", JStr "movie-7-viewed-01234567");
                      ("type", JStr "movie");
                      ("timestamp", JStr "2025-01-01T00:00:00Z");
                      ("payload", JObj Samples.movie_viewed)])], 201), w') /\
     List.length (produced w') = 1%nat) /\
  create_movie_event Samples.no_float (Samples.posted Samples.movie_untitled)
    Samples.events_world
  = (Ok (jsonify [("error", JStr "Missing required field: title")], 400),
     Samples.events_world).
Proof.
  split.
  - destruct (create_event_answers Samples.no_float Movie
                (Samples.posted Samples.movie_viewed) Samples.movie_viewed
                Samples.events_world eq_refl) as [Hcreated _].
    destruct Hcreated as (entity & suffix & timestamp & md & r & w' & _ & _ & Hp & _).
    + intros f [<-|[<-|[<-|[]]]]; reflexivity.
    + intros r _. eexists. reflexivity.
    + eexists. split; [reflexivity|]. reflexivity.
  - apply (create_event_answers Samples.no_float Movie
             (Samples.posted Samples.movie_untitled) Samples.movie_untitled
             Samples.events_world eq_refl).
    + simpl. auto.
    + reflexivity.
    + intros g [<-|[<-|[<-|[]]]] Hg; try reflexivity. now contradiction Hg.
Defined.

End EventViews.

(* ================================================================== *)
(** * More on the router *)
(* ================================================================== *)

Module RoutingMore.
Import Py PyNotations Proxy ProxyTerms MoreTerms PyFacts Routing.

Lemma list_ascii_of_string_app s t :
  list_ascii_of_string (s ++ t)
  = (list_ascii_of_string s ++ list_ascii_of_string t)%list.
Proof. induction s as [|c s IH]; simpl; [reflexivity | now rewrite IH]. Qed.

Lemma append_cancel_r s1 s2 t : s1 ++ t = s2 ++ t -> s1 = s2.
Proof.
  intros H. apply (f_equal list_ascii_of_string) in H.
  rewrite !list_ascii_of_string_app in H. apply app_inv_tail in H.
  apply (f_equal string_of_list_ascii) in H.
  now rewrite !string_of_list_ascii_of_string in H.
Qed.

(** X1.  The split: with gradual migration on, a path under
    [/api/movies] other than the health path goes to the movies service
    exactly when the draw is below the percentage, and to the monolith
    otherwise.  One draw is used and one line is printed; nothing is
    asked of a backend and nothing is sent to the client. *)
Theorem split_rule self path w :
  path <> "/api/movies/health" ->
  startswith path "/api/movies" = true ->
  gradual_migration self = true ->
  exists w',
    _determine_target self path w
    = (Ok ((if draws w (drawn w) <? movies_migration_percent self
            then movies_service_url self else monolith_url self) ++ path), w') /\
    drawn w' = S (drawn w) /\
    List.length (stdout w') = S (List.length (stdout w)) /\
    outbound w' = outbound w /\ wire w' = wire w /\ rfile w' = rfile w.
Proof.
  intros Hne Hpre Hgm.
  rewrite (determine_target_split self path w Hne Hpre Hgm). cbv zeta.
  destruct (draws w (drawn w) <? movies_migration_percent self);
    eexists; (split; [reflexivity|]); simpl;
    rewrite length_app; simpl; repeat split; lia.
Qed.

Lemma split_rule_witness :
  exists w',
    _determine_target (Samples.handler true 30 "GET" "/api/movies/7" [])
      "/api/movies/7" (Samples.world 12 [] Samples.refused)
    = (Ok "http://movies-service:8081/api/movies/7", w') /\
    drawn w' = 1%nat.
Proof.
  destruct (split_rule (Samples.handler true 30 "GET" "/api/movies/7" [])
              "/api/movies/7" (Samples.world 12 [] Samples.refused))
    as (w' & Hrun & Hd & _); [discriminate | reflexivity | reflexivity |].
  exists w'. split; [exact Hrun | exact Hd].
Defined.

(** X2.  The percentage is not checked against 0..100: with a draw in
    0..99, any percentage of 100 or more sends every such request to
    the movies service and any percentage of 0 or less sends every one
    to the monolith. *)
Theorem percent_out_of_range self path w :
  path <> "/api/movies/health" ->
  startswith path "/api/movies" = true ->
  gradual_migration self = true ->
  0 <= draws w (drawn w) <= 99 ->
  (100 <= movies_migration_percent self ->
   fst (_determine_target self path w) = Ok (movies_service_url self ++ path)) /\
  (movies_migration_percent self <= 0 ->
   fst (_determine_target self path w) = Ok (monolith_url self ++ path)).
Proof.
  intros Hne Hpre Hgm Hr.
  rewrite (determine_target_split self path w Hne Hpre Hgm). cbv zeta.
  split; intros Hp.
  - destruct (Z.ltb_spec (draws w (drawn w)) (movies_migration_percent self));
      [reflexivity | lia].
  - destruct (Z.ltb_spec (draws w (drawn w)) (movies_migration_percent self));
      [lia | reflexivity].
Qed.

Lemma percent_out_of_range_witness :
  fst (_determine_target (Samples.handler true 250 "GET" "/api/movies" [])
         "/api/movies" (Samples.world 99 [] Samples.refused))
  = Ok "http://movies-service:8081/api/movies" /\
  fst (_determine_target (Samples.handler true (-3) "GET" "/api/movies" [])
         "/api/movies" (Samples.world 0 [] Samples.refused))
  = Ok "http://monolith:8080/api/movies".
Proof.
  split.
  - apply (percent_out_of_range (Samples.handler true 250 "GET" "/api/movies" [])
             "/api/movies" (Samples.world 99 [] Samples.refused));
      [discriminate | reflexivity | reflexivity | simpl; lia | simpl; lia].
  - apply (percent_out_of_range (Samples.handler true (-3) "GET" "/api/movies" [])
             "/api/movies" (Samples.world 0 [] Samples.refused));
      [discriminate | reflexivity | reflexivity | simpl; lia | simpl; lia].
Defined.

Lemma goes_to_movies_below self path w r :
  path <> "/api/movies/health" ->
  startswith path "/api/movies" = true ->
  gradual_migration self = true ->
  movies_service_url self <> monolith_url self ->
  goes_to_movies self path w r = (r <? movies_migration_percent self).
Proof.
  intros Hne Hpre Hgm Hurls. unfold goes_to_movies.
  rewrite (determine_target_split self path (with_draw r w) Hne Hpre Hgm).
  cbv zeta. cbn [draws with_draw].
  destruct (r <? movies_migration_percent self); cbn [fst].
  - apply String.eqb_refl.
  - apply String.eqb_neq. intros E. apply append_cancel_r in E. congruence.
Qed.

Lemma count_below p n :
  List.length (filter (fun r => r <? p) (map Z.of_nat (seq 0 n)))
  = Z.to_nat (Z.max 0 (Z.min p (Z.of_nat n))).
Proof.
  induction n as [|n IH]; [simpl; lia|].
  rewrite seq_S, map_app, filter_app, length_app, IH. cbn [seq map filter Nat.add].
  destruct (Z.ltb_spec (Z.of_nat n) p); simpl; lia.
Qed.

(** X3.  Of the hundred draws 0..99, the number that send a request to
    the movies service is the percentage, cut to 0..100. *)
Theorem split_share self path w :
  path <> "/api/movies/health" ->
  startswith path "/api/movies" = true ->
  gradual_migration self = true ->
  movies_service_url self <> monolith_url self ->
  List.length (filter (goes_to_movies self path w) all_draws)
  = Z.to_nat (Z.max 0 (Z.min (movies_migration_percent self) 100)).
Proof.
  intros Hne Hpre Hgm Hurls. unfold all_draws.
  rewrite (filter_ext _ (fun r => r <? movies_migration_percent self)).
  - apply (count_below (movies_migration_percent self) 100).
  - intros r. now apply goes_to_movies_below.
Qed.

Lemma split_share_witness :
  List.length
    (filter (goes_to_movies (Samples.handler true 30 "GET" "/api/movies/7" [])
               "/api/movies/7" (Samples.world 0 [] Samples.refused)) all_draws)
  = 30%nat.
Proof.
  apply (split_share (Samples.handler true 30 "GET" "/api/movies/7" [])
           "/api/movies/7" (Samples.world 0 [] Samples.refused));
    [discriminate | reflexivity | reflexivity | discriminate].
Defined.

(** X4.  The health exemption is for the exact path: the health path
    followed by anything (a slash, a query string) is an ordinary path
    under [/api/movies], which goes to the monolith when gradual
    migration is off. *)
Theorem health_exemption_exact self suffix w :
  suffix <> "" ->
  gradual_migration self = false ->
  _determine_target self ("/api/movies/health" ++ suffix) w
  = (Ok (monolith_url self ++ "/api/movies/health" ++ suffix), w).
Proof.
  intros Hs Hgm. unfold _determine_target.
  destruct suffix as [|c suffix]; [contradiction|].
  assert (Hh : String.eqb ("/api/movies/health" ++ String c suffix)
                 "/api/movies/health" = false) by reflexivity.
  assert (Hm : startswith ("/api/movies/health" ++ String c suffix) "/api/movies" = true).
  { unfold startswith. simpl. repeat (destruct (ascii_dec _ _); [|congruence]).
    reflexivity. }
  now rewrite Hh, Hm, Hgm.
Qed.

Lemma health_exemption_exact_witness :
  _determine_target (Samples.handler false 100 "GET" "/api/movies/health?probe=1" [])
    "/api/movies/health?probe=1" (Samples.world 0 [] Samples.refused)
  = (Ok "http://monolith:8080/api/movies/health?probe=1",
     Samples.world 0 [] Samples.refused).
Proof.
  apply (health_exemption_exact (Samples.handler false 100 "GET" "" []) "?probe=1"
           (Samples.world 0 [] Samples.refused)); [discriminate | reflexivity].
Defined.

End RoutingMore.

(* ================================================================== *)
(** * More on the bridge *)
(* ================================================================== *)

Module BridgeMore.
Import Py PyNotations Proxy ProxyTerms MoreTerms PyFacts Routing Bridge Handler.

#[local] Arguments in_list : simpl never.
#[local] Arguments send_headers : simpl never.

(** ** One response *)

Lemma responses_app l1 l2 : responses (l1 ++ l2) = (responses l1 + responses l2)%nat.
Proof. unfold responses. now rewrite filter_app, length_app. Qed.

Lemma responses_headers hs : responses (map header_event hs) = 0%nat.
Proof. induction hs as [|kv hs IH]; [reflexivity | exact IH]. Qed.

Lemma responses_response_events status content headers content_type :
  responses (response_events status content headers content_type) = 1%nat.
Proof.
  unfold response_events. rewrite !responses_app, responses_headers. reflexivity.
Qed.

Lemma last_response_events status content headers content_type :
  last (response_events status content headers content_type) end_headers
  = wfile_write (encoded content).
Proof.
  unfold response_events. rewrite app_assoc.
  set (l := (_ ++ map header_event _)%list).
  change (last (l ++ [send_header "Content-Length"
                        (str_of_Z (Z.of_nat (List.length (encoded content))));
                      end_headers; wfile_write (encoded content)]) end_headers
          = wfile_write (encoded content)).
  induction l as [|e l IH]; [reflexivity|].
  simpl. destruct (l ++ _)%list eqn:E; [|exact IH].
  destruct l; discriminate E.
Qed.

(** X5.  [_send_response] to a client that takes the two writes (the
    headers, then the body) returns, having printed the access line
    of the library for the status and sent one complete response: the
    status; one [Content-Type], which is the argument when one is
    given, else the [Content-Type] among the headers, else
    [text/plain; charset=utf-8] for a [str] and [application/json] for
    [bytes]; the headers given, but for [Content-Type],
    [Content-Length] and [Transfer-Encoding]; a [Content-Length] that
    is the number of bytes written (of the UTF-8 encoding, for a
    [str]); the end of the headers; the bytes. *)
Theorem send_response_trace status content headers content_type w :
  sends w (sent w) = Ok tt ->
  sends w (S (sent w)) = Ok tt ->
  exists events,
    _send_response status content headers content_type w
    = (Ok tt,
       set_sent (S (S (sent w)))
         (set_wire (wire w ++ events)
            (set_stdout
               (stdout w ++ ["[Proxy] " ++ quote ++ requestline w ++ quote ++ " "
                             ++ str_of_Z status ++ " -"]) w))) /\
    events =
      ([send_response status;
        send_header "Content-Type"
          (if truthy_opt_str content_type
           then match content_type with Some ct => ct | None => "" end
           else match dict_get "Content-Type" (items headers) with
                | Some v => v
                | None => match content with
                          | Str _ => "text/plain; charset=utf-8"
                          | Bytes _ => "application/json"
                          end
                end)]
       ++ map (fun kv => send_header (fst kv) (snd kv))
            (filter (fun kv => negb (in_list (lower (fst kv))
                                       ["content-type"; "content-length"; "transfer-encoding"]))
               (items headers))
       ++ [send_header "Content-Length"
             (str_of_Z (Z.of_nat (List.length (encoded content))));
           end_headers;
           wfile_write (encoded content)])%list /\
    responses events = 1%nat.
Proof.
  intros H1 H2.
  exists (response_events status content headers content_type).
  split; [apply send_response_run; now split|]. split; [reflexivity|].
  apply responses_response_events.
Qed.

Lemma send_response_trace_witness :
  exists events,
    _send_response 404 (Str "no") (Some [("X-A", "1"); ("content-length", "9")]) None
      (Samples.world 0 [] Samples.refused)
    = (Ok tt,
       set_sent 2
         (set_wire events
            (set_stdout ["[Proxy] " ++ quote ++ "GET / HTTP/1.1" ++ quote ++ " 404 -"]
               (Samples.world 0 [] Samples.refused)))) /\
    events = [send_response 404;
              send_header "Content-Type" "text/plain; charset=utf-8";
              send_header "X-A" "1";
              send_header "Content-Length" "2";
              end_headers;
              wfile_write [x6e; x6f]].
Proof.
  destruct (send_response_trace 404 (Str "no")
              (Some [("X-A", "1"); ("content-length", "9")]) None
              (Samples.world 0 [] Samples.refused) eq_refl eq_refl)
    as (events & Hrun & Hev & _).
  exists events. split; [exact Hrun|]. rewrite Hev. vm_compute. reflexivity.
Defined.

(** X6.  The liveness path: whatever the configuration, the headers of
    the request and the state of the backends, [/health] is answered
    [200] with the fixed text to a client that takes the two writes;
    no draw is made, nothing is read from the client, no backend is
    asked, and the one line printed is the access line of the
    library. *)
Theorem local_health_answer self w :
  path self = "/health" ->
  sends w (sent w) = Ok tt ->
  sends w (S (sent w)) = Ok tt ->
  _handle_request self w
  = (Ok tt,
     set_sent (S (S (sent w)))
       (set_wire
          (wire w ++
           [send_response 200;
            send_header "Content-Type" "text/plain";
            send_header "Content-Length" "30";
            end_headers;
            wfile_write (encode_utf8 "Strangler Fig Proxy is healthy")])
          (set_stdout
             (stdout w ++ ["[Proxy] " ++ quote ++ requestline w ++ quote ++ " 200 -"])
             w))).
Proof.
  intros Hp H1 H2. unfold _handle_request. rewrite Hp.
  change (String.eqb "/health" "/health") with true. cbv iota.
  rewrite send_response_run by now split. reflexivity.
Qed.

Lemma local_health_answer_witness :
  outbound (snd (_handle_request (Samples.handler true 50 "GET" "/health" [])
                   (Samples.asked "GET /health HTTP/1.1"
                      (Samples.world 7 [x68] Samples.refused)))) = [] /\
  stdout (snd (_handle_request (Samples.handler true 50 "GET" "/health" [])
                 (Samples.asked "GET /health HTTP/1.1"
                    (Samples.world 7 [x68] Samples.refused))))
  = ["[Proxy] " ++ quote ++ "GET /health HTTP/1.1" ++ quote ++ " 200 -"] /\
  responses (wire (snd (_handle_request (Samples.handler true 50 "GET" "/health" [])
                          (Samples.asked "GET /health HTTP/1.1"
                             (Samples.world 7 [x68] Samples.refused))))) = 1%nat.
Proof.
  rewrite (local_health_answer (Samples.handler true 50 "GET" "/health" [])
             (Samples.asked "GET /health HTTP/1.1"
                (Samples.world 7 [x68] Samples.refused)) eq_refl eq_refl eq_refl).
  repeat split.
Defined.

(** ** The handler as a whole *)

(** Deciding the target changes nothing but the count of draws and
    the lines printed. *)
Lemma determine_target_rest self path w :
  exists n l, snd (_determine_target self path w) = set_drawn n (set_stdout l w).
Proof.
  assert (Hsame : w = set_drawn (drawn w) (set_stdout (stdout w) w)) by now destruct w.
  unfold _determine_target.
  destruct (String.eqb path "/api/movies/health"); [cbn; eauto|].
  destruct (startswith path "/api/movies");
    [|destruct (startswith path "/api/events"); cbn; eauto].
  destruct (gradual_migration self); [|cbn; eauto].
  unfold bind at 1. unfold randint_0_99. cbv beta iota.
  destruct (_ <? _); unfold bind, log_message, lift;
    match goal with |- context [percent_format ?s] => destruct (percent_format s) end;
    cbn; eexists; eexists; reflexivity.
Qed.

Lemma determine_target_keeps_wire self path : keeps wire (_determine_target self path).
Proof. intros w. destruct (determine_target_rest self path w) as (n & l & ->). reflexivity. Qed.

Lemma determine_target_keeps_outbound self path :
  keeps outbound (_determine_target self path).
Proof. intros w. destruct (determine_target_rest self path w) as (n & l & ->). reflexivity. Qed.

(** What the [except] clauses leave on the wire of a client that takes
    a response: an error response, or nothing when the line to log
    cannot be formatted. *)
Lemma on_error_wire target_url e w :
  takes_response w ->
  match on_error target_url e w with
  | (Ok _, w') =>
    wire w' =
    (wire w ++ if is_class RequestException e
               then error_events 502 ("Bad Gateway: " ++ exc_str e)
               else error_events 500 "Internal Server Error")%list
  | (Raise _, w') => wire w' = wire w
  end.
Proof.
  intros Hsends. unfold on_error.
  destruct (is_class RequestException e); unfold bind at 1;
    unfold log_message, bind, lift;
    match goal with |- context [percent_format ?s] => destruct (percent_format s) end;
    try reflexivity; unfold print; now rewrite send_error_response_wire.
Qed.

Lemma error_events_response status message :
  error_events status message
  = response_events status (Str (error_body message)) None (Some "application/json").
Proof. reflexivity. Qed.

Lemma relayed_events_response response :
  relayed_events response
  = response_events (status_code response) (Bytes (content response))
      (Some (response_headers response)) None.
Proof. reflexivity. Qed.

Lemma one_response_events status content headers content_type :
  one_response (response_events status content headers content_type).
Proof.
  split; [apply responses_response_events|].
  eexists. apply last_response_events.
Qed.

Lemma proxy_request_wire self target_url w :
  takes_response w ->
  match _proxy_request self target_url w with
  | (Ok _, w') => exists events, wire w' = (wire w ++ events)%list /\ one_response events
  | (Raise _, w') => wire w' = wire w
  end.
Proof.
  intros Hsends.
  assert (Herr : forall e w1, wire w1 = wire w -> takes_response w1 ->
            match on_error target_url e w1 with
            | (Ok _, w') =>
              exists events, wire w' = (wire w ++ events)%list /\ one_response events
            | (Raise _, w') => wire w' = wire w
            end).
  { intros e w1 Hw Hs1. pose proof (on_error_wire target_url e w1 Hs1) as H.
    destruct (on_error target_url e w1) as [[u|e'] w'].
    - rewrite H, Hw. eexists. split; [reflexivity|].
      destruct (is_class RequestException e); rewrite error_events_response;
        apply one_response_events.
    - now rewrite H. }
  unfold _proxy_request, try_except.
  destruct (read_body self w) as [[body|e] w1] eqn:H;
    destruct (read_body_rest _ _ _ _ H) as [l Hw1].
  - destruct (backend w (outbound_request self target_url body)) as [response|e] eqn:Hb.
    + rewrite (relay_backend_answers _ _ _ _ _ _ H Hb Hsends). subst w1.
      eexists. split; [reflexivity|].
      rewrite relayed_events_response. apply one_response_events.
    + rewrite (relay_backend_raises _ _ _ _ _ _ H Hb). subst w1.
      apply Herr; [reflexivity | exact Hsends].
  - rewrite (relay_body_raises _ _ _ _ _ H). subst w1.
    apply Herr; [reflexivity | exact Hsends].
Qed.

(** X7.  Every request of a client that takes the two writes of a
    response gets one complete response or none at all: when
    [_handle_request] returns, it has started exactly one response and
    its last call wrote the body; when it raises, it has sent nothing.
    Either way it has asked a backend at most once. *)
Theorem one_response_or_none self w :
  sends w (sent w) = Ok tt ->
  sends w (S (sent w)) = Ok tt ->
  match _handle_request self w with
  | (Ok _, w') =>
    exists events,
      wire w' = (wire w ++ events)%list /\
      responses events = 1%nat /\
      exists b, last events end_headers = wfile_write b
  | (Raise _, w') => wire w' = wire w
  end /\
  exists requests,
    outbound (snd (_handle_request self w)) = (outbound w ++ requests)%list /\
    (List.length requests <= 1)%nat.
Proof.
  intros H1 H2. assert (Hsends : takes_response w) by now split.
  unfold _handle_request.
  destruct (String.eqb (path self) "/health").
  - rewrite send_response_run by exact Hsends. split.
    + eexists. split; [reflexivity|]. apply one_response_events.
    + exists []. simpl. rewrite app_nil_r. auto.
  - unfold bind.
    destruct (determine_target_rest self (path self) w) as (n & l & Hw1).
    destruct (_determine_target self (path self) w) as [[target_url|e] w1];
      cbn [snd] in Hw1; subst w1.
    + destruct (negb (truthy_str target_url)).
      * unfold _send_error_response. rewrite send_response_run by exact Hsends. split.
        -- eexists. split; [reflexivity|]. apply one_response_events.
        -- exists []. cbn. rewrite app_nil_r. auto.
      * split.
        -- pose proof (proxy_request_wire self target_url
                         (set_drawn n (set_stdout l w)) Hsends) as H.
           destruct (_proxy_request self target_url _) as [[u|e] w2].
           ++ destruct H as (events & Hev & Hone). exists events.
              split; [exact Hev | exact Hone].
           ++ exact H.
        -- rewrite proxy_request_outbound.
           destruct (read_body self _) as [[body|e] w2].
           ++ eexists. split; [reflexivity|]. simpl. auto.
           ++ exists []. rewrite app_nil_r. simpl. auto.
    + split; [reflexivity|]. exists []. cbn [snd]. rewrite app_nil_r. simpl. auto.
Qed.

Lemma one_response_or_none_witness :
  exists w' events,
    _handle_request (Samples.handler false 0 "GET" "/api/users" [])
      (Samples.world 0 [] (Ok Samples.created)) = (Ok tt, w') /\
    wire w' = events /\ responses events = 1%nat /\
    List.length (outbound w') = 1%nat.
Proof.
  pose proof (one_response_or_none (Samples.handler false 0 "GET" "/api/users" [])
                (Samples.world 0 [] (Ok Samples.created)) eq_refl eq_refl) as [H _].
  destruct (_handle_request (Samples.handler false 0 "GET" "/api/users" [])
              (Samples.world 0 [] (Ok Samples.created))) as [[[]|e] w'] eqn:Hrun;
    [|vm_compute in Hrun; discriminate Hrun].
  destruct H as (events & Hwire & Hone & _).
  exists w', events. split; [reflexivity|]. split; [exact Hwire|]. split; [exact Hone|].
  vm_compute in Hrun. inversion Hrun. reflexivity.
Defined.

(** ** The body of the request *)

(** A read that succeeds gives the first [n] bytes. *)
Lemma rfile_read_ok n w b :
  0 <= n ->
  fst (rfile_read n w) = Ok b ->
  rfile_read n w
  = (Ok (firstn (Z.to_nat n) (rfile w)), set_rfile (skipn (Z.to_nat n) (rfile w)) w) /\
  b = firstn (Z.to_nat n) (rfile w).
Proof.
  intros Hpos. unfold rfile_read.
  destruct (_ || _); [discriminate|].
  destruct (n <? -1); [discriminate|].
  destruct (_ <? n); [discriminate|].
  destruct (read_fault w n); [discriminate|].
  destruct (Z.eqb_spec n (-1)); [lia|].
  cbn [fst]. intros H. inversion H. now split.
Qed.

Lemma read_body_length self w v n b :
  headers_get "Content-Length" (headers self) = Some v ->
  int_of_str v = Ok n ->
  0 <= n ->
  fst (rfile_read n w) = Ok b ->
  read_body self w
  = (Ok (Some (firstn (Z.to_nat n) (rfile w))),
     set_rfile (skipn (Z.to_nat n) (rfile w)) w).
Proof.
  intros Hv Hn Hpos Hread. unfold read_body. rewrite Hv.
  destruct v as [|c v]; [discriminate Hn|]. cbn [truthy_str].
  unfold bind, lift. rewrite Hn.
  now rewrite (proj1 (rfile_read_ok n w b Hpos Hread)).
Qed.

(** X8.  A request with a [Content-Length] that is a number [n], zero
    or more, when the read of [n] bytes from the client succeeds: what
    was read is the first [n] bytes the client sent (all of them if
    there are fewer), and the request made to the backend carries
    them, under the method of the client, to the URL decided, with a
    timeout of 30 seconds; this whether the backend answers or
    fails. *)
Theorem body_forwarded self target_url w v n b :
  headers_get "Content-Length" (headers self) = Some v ->
  int_of_str v = Ok n ->
  0 <= n ->
  fst (rfile_read n w) = Ok b ->
  b = firstn (Z.to_nat n) (rfile w) /\
  outbound (snd (_proxy_request self target_url w))
  = (outbound w ++
     [{| method := command self;
         url := target_url;
         request_headers := copy_headers (headers self) [];
         data := Some b;
         timeout := 30 |}])%list.
Proof.
  intros Hv Hn Hpos Hread.
  destruct (rfile_read_ok n w b Hpos Hread) as [_ ->]. split; [reflexivity|].
  rewrite proxy_request_outbound.
  now rewrite (read_body_length self w v n _ Hv Hn Hpos Hread).
Qed.

Lemma body_forwarded_witness :
  map data (outbound (snd (_proxy_request Samples.post_users
                             "http://monolith:8080/api/users"
                             (Samples.world 0 [x68; x69; x21] Samples.refused))))
  = [Some [x68; x69]].
Proof.
  destruct (body_forwarded Samples.post_users "http://monolith:8080/api/users"
              (Samples.world 0 [x68; x69; x21] Samples.refused) "2" 2 [x68; x69]
              eq_refl eq_refl) as [_ Hout]; [lia | reflexivity |].
  rewrite Hout. reflexivity.
Defined.

(** X9.  A request without a [Content-Length] header, or with an empty
    one: the request made to the backend carries no body, even if the
    client sent bytes, and those bytes are left unread. *)
Theorem body_dropped self target_url w :
  headers_get "Content-Length" (headers self) = None \/
  headers_get "Content-Length" (headers self) = Some "" ->
  read_body self w = (Ok None, w) /\
  outbound (snd (_proxy_request self target_url w))
  = (outbound w ++
     [{| method := command self;
         url := target_url;
         request_headers := copy_headers (headers self) [];
         data := None;
         timeout := 30 |}])%list.
Proof.
  intros Hv.
  assert (H : read_body self w = (Ok None, w))
    by (unfold read_body; destruct Hv as [-> | ->]; reflexivity).
  split; [exact H|]. rewrite proxy_request_outbound. now rewrite H.
Qed.

Lemma body_dropped_witness :
  map data (outbound (snd (_proxy_request
                             (Samples.handler false 0 "POST" "/api/users"
                                [("Transfer-Encoding", "chunked")])
                             "http://monolith:8080/api/users"
                             (Samples.world 0 [x68; x69] Samples.refused))))
  = [None].
Proof.
  destruct (body_dropped (Samples.handler false 0 "POST" "/api/users"
                            [("Transfer-Encoding", "chunked")])
              "http://monolith:8080/api/users"
              (Samples.world 0 [x68; x69] Samples.refused)) as [_ H].
  - left. reflexivity.
  - rewrite H. reflexivity.
Defined.

(** ** Text without a percent sign *)

Lemma substring_plain c n m s :
  contains_char c s = false -> contains_char c (substring n m s) = false.
Proof.
  revert n m. induction s as [|d s IH]; intros n m H.
  - destruct n, m; reflexivity.
  - simpl in H. apply orb_false_elim in H. destruct H as [Hd Hs].
    destruct n as [|n]; [destruct m as [|m]|]; simpl; auto.
    now rewrite Hd, IH.
Qed.

Lemma repr_char_plain q c :
  q = squote \/ q = dquote ->
  Ascii.eqb percent c = false ->
  contains_char percent (repr_char q c) = false.
Proof.
  intros [-> | ->] Hc;
    destruct c as [[] [] [] [] [] [] [] []]; try discriminate Hc; reflexivity.
Qed.

Lemma repr_body_plain q s :
  q = squote \/ q = dquote ->
  contains_char percent s = false ->
  contains_char percent (repr_body q s) = false.
Proof.
  intros Hq. induction s as [|c s IH]; intros H; [reflexivity|].
  cbn [contains_char] in H. apply orb_false_elim in H. destruct H as [Hc Hs].
  cbn [repr_body]. rewrite contains_char_app, (repr_char_plain q c Hq Hc).
  apply IH, Hs.
Qed.

Lemma repr_str_plain s :
  contains_char percent s = false -> contains_char percent (repr_str s) = false.
Proof.
  intros H. unfold repr_str.
  set (q := if contains_char squote s && negb (contains_char dquote s)
            then dquote else squote).
  assert (Hq : q = squote \/ q = dquote)
    by (unfold q; destruct (_ && _); auto).
  assert (Hqp : Ascii.eqb percent q = false) by (destruct Hq as [-> | ->]; reflexivity).
  cbn [contains_char]. rewrite Hqp, contains_char_app. cbn [contains_char orb].
  rewrite Hqp, orb_false_r. cbn [orb].
  now apply repr_body_plain.
Qed.

(** X10.  A [Content-Length] that is no number, or a number below -1
    or above [2^63 - 34]: a client that takes the two writes is
    answered [500] with the fixed error body, and no backend is asked;
    two lines are printed, the one of the error and the access line
    of the library.  This as long as the header value holds no percent
    sign. *)
Theorem malformed_content_length self target_url w v :
  headers_get "Content-Length" (headers self) = Some v ->
  v <> "" ->
  (forall n, int_of_str v = Ok n -> n < -1 \/ 2 ^ 63 - 34 < n) ->
  contains_char percent v = false ->
  sends w (sent w) = Ok tt ->
  sends w (S (sent w)) = Ok tt ->
  exists line,
    _proxy_request self target_url w
    = (Ok tt,
       set_sent (S (S (sent w)))
         (set_wire
            (wire w ++
             [send_response 500;
              send_header "Content-Type" "application/json";
              send_header "Content-Length" "34";
              end_headers;
              wfile_write
                (encode_utf8 ("{" ++ quote ++ "error" ++ quote ++ ": " ++ quote
                              ++ "Internal Server Error" ++ quote ++ "}"))])
            (set_stdout
               (stdout w ++
                ["[Proxy] Unexpected error: " ++ line;
                 "[Proxy] " ++ quote ++ requestline w ++ quote ++ " 500 -"])
               w))) /\
    outbound (snd (_proxy_request self target_url w)) = outbound w.
Proof.
  intros Hv Hne Hbad Hplain H1 H2.
  assert (Hrb : exists e, read_body self w = (Raise e, w) /\
                          is_class RequestException e = false /\
                          contains_char percent (exc_str e) = false).
  { unfold read_body. rewrite Hv.
    destruct v as [|c v]; [contradiction|]. cbn [truthy_str].
    unfold bind, lift.
    destruct (int_of_str (String c v)) as [n|e] eqn:Hn.
    - specialize (Hbad n eq_refl). unfold rfile_read.
      destruct ((n <? - 2 ^ 63) || (2 ^ 63 - 1 <? n)) eqn:Hrange.
      + eexists. split; [reflexivity|]. split; reflexivity.
      + destruct (Z.ltb_spec n (-1)).
        * eexists. split; [reflexivity|]. split; reflexivity.
        * destruct (Z.ltb_spec (2 ^ 63 - 34) n); [|lia].
          eexists. split; [reflexivity|]. split; reflexivity.
    - exists e. split; [reflexivity|].
      unfold int_of_str in Hn.
      destruct (int_literal _).
      + destruct (_ <? _)%nat; [|discriminate Hn]. inversion Hn; subst e.
        split; [reflexivity|]. cbn [exc_str exceeds_limit].
        rewrite !contains_char_app, str_of_Z_plain. reflexivity.
      + inversion Hn; subst e.
        split; [reflexivity|]. cbn [exc_str invalid_literal].
        rewrite contains_char_app. cbn [orb].
        apply orb_false_intro; [reflexivity|].
        apply substring_plain, repr_str_plain, Hplain. }
  destruct Hrb as (e & Hrb & Hclass & He).
  exists (exc_str e). split.
  - rewrite (proxy_request_internal_error self target_url w e w
               (relay_body_raises _ _ _ _ _ Hrb) Hclass He (conj H1 H2)).
    unfold answered, access_line. cbn. now rewrite <- app_assoc.
  - rewrite proxy_request_outbound. now rewrite Hrb.
Qed.

Lemma malformed_content_length_witness :
  exists line w',
    _proxy_request
      (Samples.handler false 0 "POST" "/api/users" [("Content-Length", "-7")])
      "http://monolith:8080/api/users"
      (Samples.asked "POST /api/users HTTP/1.1"
         (Samples.world 0 [x68] (Ok Samples.created)))
    = (Ok tt, w') /\
    stdout w' = ["[Proxy] Unexpected error: " ++ line;
                 "[Proxy] " ++ quote ++ "POST /api/users HTTP/1.1" ++ quote ++ " 500 -"] /\
    outbound w' = [].
Proof.
  destruct (malformed_content_length
              (Samples.handler false 0 "POST" "/api/users" [("Content-Length", "-7")])
              "http://monolith:8080/api/users"
              (Samples.asked "POST /api/users HTTP/1.1"
                 (Samples.world 0 [x68] (Ok Samples.created))) "-7")
    as (line & Hrun & _).
  - reflexivity.
  - discriminate.
  - intros n Hn. vm_compute in Hn. inversion Hn. lia.
  - reflexivity.
  - reflexivity.
  - reflexivity.
  - exists line. eexists. split; [exact Hrun|]. split; reflexivity.
Defined.

(** ** A backend that fails *)

Lemma append_assoc s t u : (s ++ t) ++ u = s ++ t ++ u.
Proof. induction s as [|c s IH]; simpl; [reflexivity | now rewrite IH]. Qed.

(** X11.  The body was read and [requests.request] raises: when
    neither the URL nor the text of the exception holds a percent
    sign, a client that takes the two writes is answered [502] with
    [Bad Gateway: ] and that text if the exception is a
    [RequestException], and [500] with the fixed text if it is
    anything else, in both cases as a JSON object with the one key
    [error]; two lines are printed, the one of the error and the
    access line of the library; the request was made once and is not
    made again. *)
Theorem backend_failure_answered self target_url w body w1 e :
  read_body self w = (Ok body, w1) ->
  backend w (outbound_request self target_url body) = Raise e ->
  contains_char percent (target_url ++ exc_str e) = false ->
  sends w (sent w) = Ok tt ->
  sends w (S (sent w)) = Ok tt ->
  let status := if is_class RequestException e then 502 else 500 in
  let message :=
    if is_class RequestException e then "Bad Gateway: " ++ exc_str e
    else "Internal Server Error" in
  let payload :=
    encode_utf8 ("{" ++ quote ++ "error" ++ quote ++ ": " ++ quote ++ message
                 ++ quote ++ "}") in
  let line :=
    if is_class RequestException e
    then "[Proxy] Error proxying request to " ++ target_url ++ ": " ++ exc_str e
    else "[Proxy] Unexpected error: " ++ exc_str e in
  let access :=
    "[Proxy] " ++ quote ++ requestline w ++ quote ++ " " ++ str_of_Z status ++ " -" in
  exists w',
    _proxy_request self target_url w = (Ok tt, w') /\
    wire w' =
      (wire w ++
       [send_response status;
        send_header "Content-Type" "application/json";
        send_header "Content-Length" (str_of_Z (Z.of_nat (List.length payload)));
        end_headers;
        wfile_write payload])%list /\
    outbound w' = (outbound w ++ [outbound_request self target_url body])%list /\
    stdout w' = (stdout w ++ [line; access])%list.
Proof.
  intros H Hb Hp H1 H2.
  destruct (read_body_rest _ _ _ _ H) as [l Hw1].
  pose proof (relay_backend_raises _ _ _ _ _ _ H Hb) as Hrelay.
  assert (Hsends : takes_response
                     (set_outbound (outbound w ++ [outbound_request self target_url body])
                        w1))
    by (subst w1; now split).
  destruct (is_class RequestException e) eqn:Hc; cbv zeta.
  - rewrite (proxy_request_bad_gateway _ _ _ _ _ Hrelay Hc Hp Hsends).
    eexists. split; [reflexivity|]. subst w1. cbn.
    rewrite <- app_assoc. repeat split.
  - rewrite contains_char_app in Hp. apply orb_false_elim in Hp.
    rewrite (proxy_request_internal_error _ _ _ _ _ Hrelay Hc (proj2 Hp) Hsends).
    eexists. split; [reflexivity|]. subst w1. cbn.
    rewrite <- app_assoc. repeat split.
Qed.

Lemma backend_failure_answered_witness :
  exists w',
    _proxy_request (Samples.handler false 0 "GET" "/api/users" [])
      "http://monolith:8080/api/users"
      (Samples.asked "GET /api/users HTTP/1.1" (Samples.world 0 [] Samples.refused))
    = (Ok tt, w') /\
    wire w' = error_events 502 "Bad Gateway: Connection refused" /\
    stdout w' =
      ["[Proxy] Error proxying request to http://monolith:8080/api/users: Connection refused";
       "[Proxy] " ++ quote ++ "GET /api/users HTTP/1.1" ++ quote ++ " 502 -"].
Proof.
  destruct (backend_failure_answered (Samples.handler false 0 "GET" "/api/users" [])
              "http://monolith:8080/api/users"
              (Samples.asked "GET /api/users HTTP/1.1" (Samples.world 0 [] Samples.refused))
              None
              (Samples.asked "GET /api/users HTTP/1.1" (Samples.world 0 [] Samples.refused))
              (Exc RequestException "Connection refused")
              eq_refl eq_refl eq_refl eq_refl eq_refl)
    as (w' & Hrun & Hwire & _ & Hout).
  exists w'. split; [exact Hrun|]. split; [exact Hwire | exact Hout].
Defined.

(** X12.  The body was read, [requests.request] raises a
    [RequestException], and the URL holds a percent sign that is not
    followed by another one: formatting the line to log raises, the
    exception of the formatting leaves [_proxy_request], and nothing
    is sent to the client; the request was made once. *)
Theorem percent_in_url_escapes self w body w1 e before after :
  read_body self w = (Ok body, w1) ->
  backend w (outbound_request self (before ++ String percent after) body) = Raise e ->
  is_class RequestException e = true ->
  contains_char percent before = false ->
  startswith after "%" = false ->
  exists e' w',
    _proxy_request self (before ++ String percent after) w = (Raise e', w') /\
    wire w' = wire w /\
    outbound w'
    = (outbound w ++ [outbound_request self (before ++ String percent after) body])%list.
Proof.
  intros H Hb Hc Hbefore Hafter.
  destruct (read_body_frame _ _ _ _ H) as (_ & Hw & _).
  pose proof (relay_backend_raises _ _ _ _ _ _ H Hb) as Hrelay.
  set (rest := after ++ ": " ++ exc_str e).
  assert (Hrest : startswith rest "%" = false).
  { unfold rest. destruct after as [|c after]; [reflexivity|].
    assert (Hpre : forall t, startswith (String c t) "%"
                             = if ascii_dec "%" c then String.prefix "" t else false)
      by reflexivity.
    cbn [append]. rewrite Hpre in Hafter |- *.
    destruct (ascii_dec "%" c); [|reflexivity]. destruct after; discriminate Hafter. }
  exists (bad_conversion rest). eexists. split; [|split].
  - apply (proxy_request_log_raises _ _ _ _ _ (bad_conversion rest) Hrelay).
    rewrite Hc.
    replace ("Error proxying request to " ++ (before ++ String percent after)
             ++ ": " ++ exc_str e)
      with (("Error proxying request to " ++ before) ++ String percent rest).
    + apply percent_format_bad_conversion; [|exact Hrest].
      rewrite contains_char_app. now rewrite Hbefore.
    + unfold rest. now rewrite !append_assoc.
  - cbn. exact Hw.
  - reflexivity.
Qed.

Lemma percent_in_url_escapes_witness :
  exists e' w',
    _proxy_request Samples.get_escaped "http://monolith:8080/api/users?name=a%20b"
      (Samples.world 0 [] Samples.refused) = (Raise e', w') /\
    wire w' = [].
Proof.
  destruct (percent_in_url_escapes Samples.get_escaped
              (Samples.world 0 [] Samples.refused) None
              (Samples.world 0 [] Samples.refused)
              (Exc RequestException "Connection refused")
              "http://monolith:8080/api/users?name=a" "20b"
              eq_refl eq_refl eq_refl eq_refl eq_refl)
    as (e' & w' & Hrun & Hwire & _).
  exists e', w'. split; [exact Hrun | exact Hwire].
Defined.

(** ** The outbound headers as a dictionary *)

(** X13.  No name occurs twice among the headers of the request made
    to the backend, however often the client repeated a header. *)
Theorem outbound_headers_distinct self target_url body :
  NoDup (map fst (request_headers (outbound_request self target_url body))).
Proof. simpl. apply copy_headers_keys. constructor. Qed.

(** ** The configuration read at start *)

(** X14.  A handler built from an environment in which
    [GRADUAL_MIGRATION] is unset, or set to anything but [true] in
    some letter case: every path but the movies health path and the
    paths under [/api/events] goes to the monolith URL of the
    environment (the default one if unset), whatever percentage is
    set. *)
Theorem without_flag_all_to_monolith env command path headers self target w :
  __init__ env command path headers = Ok self ->
  lower (getenv env "GRADUAL_MIGRATION" "false") <> "true" ->
  target <> "/api/movies/health" ->
  startswith target "/api/events" = false ->
  _determine_target self target w
  = (Ok (getenv env "MONOLITH_URL" "http://monolith:8080" ++ target), w).
Proof.
  intros Hinit Hflag Hh He. unfold __init__ in Hinit.
  destruct (int_of_str _) as [percent|e]; [|discriminate Hinit].
  inversion Hinit; subst self; clear Hinit.
  apply String.eqb_neq in Hflag, Hh.
  unfold _determine_target. cbn [gradual_migration monolith_url].
  rewrite Hh, Hflag, He. now destruct (startswith target "/api/movies").
Qed.

Lemma without_flag_all_to_monolith_witness :
  _determine_target
    (Samples.handler false 80 "GET" "/api/movies/7" []) "/api/movies/7"
    (Samples.world 0 [] Samples.refused)
  = (Ok "http://monolith:8080/api/movies/7", Samples.world 0 [] Samples.refused).
Proof.
  apply (without_flag_all_to_monolith
           (fun k => if String.eqb k "MOVIES_MIGRATION_PERCENT" then Some "80"
                     else if String.eqb k "GRADUAL_MIGRATION" then Some "yes"
                     else None)
           "GET" "/api/movies/7" []);
    [reflexivity | discriminate | discriminate | reflexivity].
Defined.

End BridgeMore.

(* ================================================================== *)
(** * More on the event views *)
(* ================================================================== *)

Module EventViewsMore.
Import Py PyNotations Events EventTerms MoreTerms PyFacts EventViews.

#[local] Arguments first_missing : simpl never.

Section Answers.

Variable float_repr : PrimFloat.float -> string.

(** X15.  A body that counts as false ([null], [false], [0], an empty
    string, array or object): [400] with [Request body is required];
    the world is left as it was. *)
Theorem empty_body c request data w :
  get_json request = Ok data ->
  truthy data = false ->
  view float_repr c request w
  = (Ok (jsonify [("error", JStr "Request body is required")], 400), w).
Proof.
  intros Hjson Hd.
  destruct c; unfold view;
    [unfold create_movie_event | unfold create_user_event | unfold create_payment_event];
    unfold try_except, bind, lift; now rewrite Hjson, Hd.
Qed.

(** X16.  A body [request.get_json()] rejects (no JSON, or not
    announced as JSON): the exception is caught by the last [except]
    clause, so the answer is [500] with [Internal server error], not
    [400]; the error is logged and nothing is handed to the producer. *)
Theorem rejected_body c request e w :
  get_json request = Raise e ->
  is_class KafkaError e = false ->
  view float_repr c request w
  = (Ok (jsonify [("error", JStr "Internal server error")], 500),
     set_log (log w ++ [(ERROR, "Error creating " ++ category_name c ++ " event: "
                                ++ exc_str e)]) w).
Proof.
  intros Hjson He.
  destruct c; unfold view;
    [unfold create_movie_event | unfold create_user_event | unfold create_payment_event];
    unfold try_except, bind, lift; now rewrite Hjson, He.
Qed.

End Answers.

Lemma empty_body_witness :
  create_payment_event Samples.no_float (Samples.posted []) Samples.events_world
  = (Ok (jsonify [("error", JStr "Request body is required")], 400),
     Samples.events_world).
Proof.
  apply (empty_body Samples.no_float Payment (Samples.posted []) (JObj [])
           Samples.events_world); reflexivity.
Defined.

Lemma rejected_body_witness :
  fst (create_user_event Samples.no_float
         {| get_json := Raise (Exc OtherException "400 Bad Request") |}
         Samples.events_world)
  = Ok (jsonify [("error", JStr "Internal server error")], 500).
Proof.
  pose proof (rejected_body Samples.no_float User
                {| get_json := Raise (Exc OtherException "400 Bad Request") |}
                (Exc OtherException "400 Bad Request") Samples.events_world
                eq_refl eq_refl) as H.
  unfold view in H. rewrite H. reflexivity.
Defined.

(** Reads a field that is there because all required fields are. *)
Ltac read_field Hall d k v Hv Hs :=
  let H := fresh in
  assert (H : dict_mem k d = true) by (apply Hall; simpl; auto 10);
  destruct (subscript_present k d H) as (v & Hv & Hs); clear H.

(** Runs a view from the hand-over to the producer on, in a world
    whose broker ends as [Hpub] says. *)
Ltac hand_over Hpub w :=
  unfold uuid4, utcnow_isoformat, producer_send, future_get, lift, logger_info,
    logger_error, ret;
  cbn [broker set_uuids];
  match goal with
  | |- context [broker w ?r] => rewrite (Hpub r eq_refl)
  end.

Section Publishing.

Variable float_repr : PrimFloat.float -> string.

(** X17.  The record handed to the producer is the event the client
    is told about.  For an object with every required field and a
    broker that takes the record: the topic is that of the category;
    the value is the [event] of the answer, whose identifier is the
    category, the entity id, the action (the status, for a payment)
    and the first eight digits of a fresh [uuid4], whose payload is the
    body as received, and whose timestamp is the clock's for a movie
    and the client's own for a user or a payment; the key is the movie
    id for a movie and the user id for a user and for a payment. *)
Theorem published_event c request d w md :
  get_json request = Ok (JObj d) ->
  (forall f, In f (required c) -> dict_mem f d = true) ->
  (forall r, topic r = topic_of c -> broker w r = Ok md) ->
  exists entity second key_value timestamp w',
    dict_get (entity_field c) d = Some entity /\
    dict_get (second_field c) d = Some second /\
    dict_get (key_field c) d = Some key_value /\
    match c with
    | Movie => timestamp = JStr (utcnow w ++ "Z")
    | _ => dict_get "timestamp" d = Some timestamp
    end /\
    let event :=
      JObj [("id", JStr (category_name c ++ "-" ++ str float_repr entity ++ "-"
                         ++ str float_repr second ++ "-"
                         ++ substring 0 8 (uuid4_hex w (uuids w))));
            ("type", JStr (category_name c));
            ("timestamp", timestamp);
            ("payload", JObj d)] in
    view float_repr c request w
    = (Ok (jsonify [("status", JStr "success");
                    ("partition", JInt (partition md));
                    ("offset", JInt (offset md));
                    ("event", event)], 201), w') /\
    produced w'
    = (produced w ++
       [{| topic := topic_of c; value := event; key := str float_repr key_value |}])%list /\
    uuids w' = S (uuids w) /\
    List.length (log w') = S (List.length (log w)).
Proof.
  intros Hjson Hall Hpub.
  assert (Hd : truthy (JObj d) = true).
  { apply (dict_mem_truthy (entity_field c)). apply Hall. destruct c; simpl; auto. }
  assert (Hfm : first_missing (required c) (JObj d) = Ok None).
  { rewrite first_missing_object. f_equal. apply find_none.
    intros f Hf. now rewrite (Hall f Hf). }
  destruct c; unfold view, required in *.
  - read_field Hall d "movie_id" movie_id Hid Hsid.
    read_field Hall d "action" action Hact Hsact.
    unfold create_movie_event, try_except, bind, lift.
    rewrite Hjson, Hd. cbn [negb]. cbv zeta. rewrite Hfm, Hsid, Hsact.
    hand_over Hpub w.
    exists movie_id, action, movie_id. eexists. eexists.
    repeat (split; [first [eassumption | reflexivity]|]).
    cbn. rewrite length_app. cbn. lia.
  - read_field Hall d "user_id" user_id Hid Hsid.
    read_field Hall d "action" action Hact Hsact.
    read_field Hall d "timestamp" timestamp Hts Hsts.
    unfold create_user_event, try_except, bind, lift.
    rewrite Hjson, Hd. cbn [negb]. cbv zeta. rewrite Hfm, Hsid, Hsact, Hsts.
    hand_over Hpub w.
    exists user_id, action, user_id, timestamp. eexists.
    repeat (split; [first [eassumption | reflexivity]|]).
    cbn. rewrite length_app. cbn. lia.
  - read_field Hall d "payment_id" payment_id Hid Hsid.
    read_field Hall d "status" status Hst Hsst.
    read_field Hall d "timestamp" timestamp Hts Hsts.
    read_field Hall d "user_id" user_id Hu Hsu.
    unfold create_payment_event, try_except, bind, lift.
    rewrite Hjson, Hd. cbn [negb]. cbv zeta. rewrite Hfm, Hsid, Hsst, Hsts, Hsu.
    hand_over Hpub w.
    exists payment_id, status, user_id, timestamp. eexists.
    repeat (split; [first [eassumption | reflexivity]|]).
    cbn. rewrite length_app. cbn. lia.
Qed.

(** X18.  For an object with every required field and a broker that
    fails: [500], with [Failed to send event to Kafka] for a
    [KafkaError] and [Internal server error] for anything else; the
    record was handed to the producer once, the error is logged, and
    the client is not told the identifier. *)
Theorem broker_failure c request d w e :
  get_json request = Ok (JObj d) ->
  (forall f, In f (required c) -> dict_mem f d = true) ->
  (forall r, topic r = topic_of c -> broker w r = Raise e) ->
  exists r w',
    view float_repr c request w
    = (Ok (jsonify [("error",
                     JStr (if is_class KafkaError e
                           then "Failed to send event to Kafka"
                           else "Internal server error"))], 500), w') /\
    produced w' = (produced w ++ [r])%list /\
    topic r = topic_of c /\
    log w'
    = (log w ++
       [(ERROR,
         (if is_class KafkaError e
          then "Kafka error: " ++ exc_str e
          else "Error creating " ++ category_name c ++ " event: " ++ exc_str e)%string)])%list.
Proof.
  intros Hjson Hall Hpub.
  assert (Hd : truthy (JObj d) = true).
  { apply (dict_mem_truthy (entity_field c)). apply Hall. destruct c; simpl; auto. }
  assert (Hfm : first_missing (required c) (JObj d) = Ok None).
  { rewrite first_missing_object. f_equal. apply find_none.
    intros f Hf. now rewrite (Hall f Hf). }
  destruct c; unfold view, required in *.
  - read_field Hall d "movie_id" movie_id Hid Hsid.
    read_field Hall d "action" action Hact Hsact.
    unfold create_movie_event, try_except, bind, lift.
    rewrite Hjson, Hd. cbn [negb]. cbv zeta. rewrite Hfm, Hsid, Hsact.
    hand_over Hpub w.
    destruct (is_class KafkaError e); eexists; eexists;
      repeat (split; [reflexivity|]); reflexivity.
  - read_field Hall d "user_id" user_id Hid Hsid.
    read_field Hall d "action" action Hact Hsact.
    read_field Hall d "timestamp" timestamp Hts Hsts.
    unfold create_user_event, try_except, bind, lift.
    rewrite Hjson, Hd. cbn [negb]. cbv zeta. rewrite Hfm, Hsid, Hsact, Hsts.
    hand_over Hpub w.
    destruct (is_class KafkaError e); eexists; eexists;
      repeat (split; [reflexivity|]); reflexivity.
  - read_field Hall d "payment_id" payment_id Hid Hsid.
    read_field Hall d "status" status Hst Hsst.
    read_field Hall d "timestamp" timestamp Hts Hsts.
    read_field Hall d "user_id" user_id Hu Hsu.
    unfold create_payment_event, try_except, bind, lift.
    rewrite Hjson, Hd. cbn [negb]. cbv zeta. rewrite Hfm, Hsid, Hsst, Hsts, Hsu.
    hand_over Hpub w.
    destruct (is_class KafkaError e); eexists; eexists;
      repeat (split; [reflexivity|]); reflexivity.
Qed.

Lemma find_app_first (p : string -> bool) before f after :
  (forall g, In g before -> p g = false) ->
  p f = true ->
  find p (before ++ f :: after) = Some f.
Proof.
  induction before as [|a before IH]; intros Hb Hf; simpl.
  - now rewrite Hf.
  - rewrite (Hb a) by now left. apply IH; [|assumption].
    intros g Hg. apply Hb. now right.
Qed.

(** X19.  When several required fields are missing from a non-empty
    object, the answer names the first of them in the order the view
    lists its required fields. *)
Theorem first_missing_reported c request d w before f after :
  get_json request = Ok (JObj d) ->
  d <> [] ->
  required c = (before ++ f :: after)%list ->
  (forall g, In g before -> dict_mem g d = true) ->
  dict_mem f d = false ->
  view float_repr c request w
  = (Ok (jsonify [("error", JStr ("Missing required field: " ++ f))], 400), w).
Proof.
  intros Hjson Hne Hreq Hbefore Hf.
  assert (Hd : truthy (JObj d) = true) by (destruct d; [contradiction | reflexivity]).
  assert (Hfm : first_missing (required c) (JObj d) = Ok (Some f)).
  { rewrite first_missing_object, Hreq. f_equal. apply find_app_first.
    - intros g Hg. now rewrite (Hbefore g Hg).
    - now rewrite Hf. }
  clear Hreq.
  destruct c; unfold view, required in *;
    [unfold create_movie_event | unfold create_user_event | unfold create_payment_event];
    unfold try_except, bind, lift; rewrite Hjson, Hd; cbn [negb];
    cbv zeta; rewrite Hfm; reflexivity.
Qed.

Lemma subscript_not_object data k :
  (forall d, data <> JObj d) -> exists e, subscript data k = Raise e.
Proof.
  intros H. destruct data; try (eexists; reflexivity).
  now contradiction (H d).
Qed.

(** X20.  Only an object can become an event: for a body that is
    valid JSON but no object (a number, a string, an array, [true]),
    the answer is [400] or [500], no identifier is drawn and nothing is
    handed to the producer; this even when the body holds the names of
    all required fields. *)
Theorem only_objects_publish c request data w :
  get_json request = Ok data ->
  (forall d, data <> JObj d) ->
  exists body status w',
    view float_repr c request w = (Ok (body, status), w') /\
    (status = 400 \/ status = 500) /\
    produced w' = produced w /\
    uuids w' = uuids w.
Proof.
  intros Hjson Hno.
  destruct (subscript_not_object data (entity_field c) Hno) as [e He].
  destruct c; unfold view, entity_field in *;
    [unfold create_movie_event | unfold create_user_event | unfold create_payment_event];
    unfold try_except, bind, lift; rewrite Hjson;
    (destruct (truthy data); cbn [negb];
     [|do 3 eexists; split; [reflexivity|]; auto]);
    cbv zeta;
    match goal with
    | |- context [first_missing ?fs data] =>
      destruct (first_missing fs data) as [[f|]|e0]
    end;
    try rewrite He;
    try match goal with
        | |- context [is_class KafkaError ?x] => destruct (is_class KafkaError x)
        end;
    do 3 eexists; (split; [reflexivity|]); auto.
Qed.

(** Splits on whatever a view is waiting for, in the order it asks. *)
Ltac split_cases request :=
  repeat (match goal with
          | |- context [get_json request] => destruct (get_json request)
          | |- context [truthy ?d] => destruct (truthy d)
          | |- context [first_missing ?fs ?d] =>
            destruct (first_missing fs d) as [[?|]|?]
          | |- context [subscript ?d ?k] => destruct (subscript d k)
          | |- context [broker ?w ?r] => destruct (broker w r) eqn:?
          | |- context [is_class KafkaError ?e] => destruct (is_class KafkaError e)
          end;
          cbv beta iota; cbn [negb broker set_uuids]).

(** X21.  A view never raises and answers [201], [400] or [500],
    whatever the request and whatever the broker does.  With [400] the
    world is left as it was.  With [201] exactly one record was handed
    to the producer and the broker took it.  In every case at most one
    record was handed over. *)
Theorem view_answers c request w :
  exists body status w',
    view float_repr c request w = (Ok (body, status), w') /\
    (status = 201 \/ status = 400 \/ status = 500) /\
    (status = 400 -> w' = w) /\
    (status = 201 ->
     exists r md, produced w' = (produced w ++ [r])%list /\ broker w r = Ok md) /\
    (produced w' = produced w \/ exists r, produced w' = (produced w ++ [r])%list).
Proof.
  destruct c; unfold view;
    [unfold create_movie_event | unfold create_user_event | unfold create_payment_event];
    unfold try_except, bind, lift, uuid4, utcnow_isoformat, producer_send, future_get,
      lift, logger_info, logger_error, ret;
    cbv zeta; split_cases request;
    do 3 eexists; (split; [reflexivity|]);
    (split; [auto|]);
    (split; [intros E; try discriminate E; reflexivity|]);
    (split; [intros E; try discriminate E; eauto|]);
    cbn; eauto.
Qed.

End Publishing.

Lemma published_event_witness :
  exists w',
    fst (create_movie_event Samples.no_float (Samples.posted Samples.movie_viewed)
           Samples.events_world)
    = Ok (jsonify
            [("status", JStr "success"); ("partition", JInt 0); ("offset", JInt 41);
             ("event",
              JObj [("id", JStr "movie-7-viewed-01234567");
                    ("type", JStr "movie");
                    ("timestamp", JStr "2025-01-01T00:00:00Z");
                    ("payload", JObj Samples.movie_viewed)])], 201) /\
    map key (produced w') = ["7"].
Proof.
  destruct (published_event Samples.no_float Movie
              (Samples.posted Samples.movie_viewed) Samples.movie_viewed
              Samples.events_world {| partition := 0; offset := 41 |} eq_refl)
    as (entity & second & key_value & timestamp & w' & He & Hs & Hk & Ht & _ & Hp & _).
  - intros f [<-|[<-|[<-|[]]]]; reflexivity.
  - reflexivity.
  - exists w'. split; [reflexivity|]. rewrite Hp.
    inversion Hk; subst key_value. reflexivity.
Defined.

Lemma broker_failure_witness :
  exists r w',
    create_movie_event Samples.no_float (Samples.posted Samples.movie_viewed)
      (set_produced [] Samples.events_world_down)
    = (Ok (jsonify [("error", JStr "Failed to send event to Kafka")], 500), w') /\
    produced w' = [r].
Proof.
  destruct (broker_failure Samples.no_float Movie
              (Samples.posted Samples.movie_viewed) Samples.movie_viewed
              (set_produced [] Samples.events_world_down)
              (Exc KafkaError "KafkaTimeoutError") eq_refl)
    as (r & w' & Hrun & Hp & _).
  - intros f [<-|[<-|[<-|[]]]]; reflexivity.
  - reflexivity.
  - exists r, w'. split; [exact Hrun | exact Hp].
Defined.

Lemma first_missing_reported_witness :
  create_payment_event Samples.no_float
    (Samples.posted [("payment_id", JInt 9); ("status", JStr "paid")])
    Samples.events_world
  = (Ok (jsonify [("error", JStr "Missing required field: user_id")], 400),
     Samples.events_world).
Proof.
  apply (first_missing_reported Samples.no_float Payment
           (Samples.posted [("payment_id", JInt 9); ("status", JStr "paid")])
           [("payment_id", JInt 9); ("status", JStr "paid")]
           Samples.events_world ["payment_id"] "user_id"
           ["amount"; "status"; "timestamp"]);
    [reflexivity | discriminate | reflexivity | | reflexivity].
  intros g [<-|[]]. reflexivity.
Defined.

Lemma only_objects_publish_witness :
  exists body status w',
    create_movie_event Samples.no_float
      {| get_json := Ok (JArr [JStr "movie_id"; JStr "title"; JStr "action"]) |}
      Samples.events_world = (Ok (body, status), w') /\
    status = 500 /\ produced w' = [].
Proof.
  destruct (only_objects_publish Samples.no_float Movie
              {| get_json := Ok (JArr [JStr "movie_id"; JStr "title"; JStr "action"]) |}
              (JArr [JStr "movie_id"; JStr "title"; JStr "action"])
              Samples.events_world eq_refl)
    as (body & status & w' & Hrun & _ & Hp & _).
  - intros d. discriminate.
  - unfold view in Hrun. exists body, status, w'. split; [exact Hrun|].
    split; [|exact Hp].
    assert (E : fst (create_movie_event Samples.no_float
                {| get_json := Ok (JArr [JStr "movie_id"; JStr "title"; JStr "action"]) |}
                Samples.events_world)
                = Ok (jsonify [("error", JStr "Internal server error")], 500))
      by reflexivity.
    rewrite Hrun in E. now inversion E.
Defined.

End EventViewsMore.

(* ================================================================== *)
(** * The consumers *)
(* ================================================================== *)

Module Consumers.
Import Py PyNotations Events EventsRest MoreTerms PyFacts.

Section Loop.

Variable dumps : JSON -> string.
Variable topic_name : string.

Lemma set_journal_same w : set_journal (journal w) w = w.
Proof. now destruct w. Qed.

Lemma log_messages_journal messages w :
  log_messages dumps topic_name messages w
  = (Ok tt,
     set_journal
       (journal w ++ map (fun v => (INFO, received dumps topic_name v)) messages) w).
Proof.
  revert w. induction messages as [|v messages IH]; intros w; simpl.
  - now rewrite app_nil_r, set_journal_same.
  - unfold bind, info. rewrite IH. simpl. now rewrite <- app_assoc.
Qed.

Lemma log_pack_journal message_pack w :
  log_pack dumps topic_name message_pack w
  = (Ok tt, set_journal (journal w ++ pack_lines dumps topic_name message_pack) w).
Proof.
  revert w. unfold pack_lines.
  induction message_pack as [|[tp messages] rest IH]; intros w; simpl.
  - now rewrite app_nil_r, set_journal_same.
  - unfold bind. rewrite log_messages_journal, IH. simpl.
    now rewrite map_app, <- app_assoc.
Qed.

Lemma turn_polled message_pack w :
  polls w (polled w) = Ok message_pack ->
  turn dumps topic_name w
  = (Ok true,
     set_journal (journal w ++ pack_lines dumps topic_name message_pack)
       (set_polled (S (polled w)) w)).
Proof.
  intros H. unfold turn, try_except, bind, poll. rewrite H.
  now rewrite log_pack_journal.
Qed.

Lemma turn_failed e w :
  polls w (polled w) = Raise e ->
  turn dumps topic_name w
  = (Ok false, set_journal (journal w ++ [failure_line topic_name e]) (set_polled (S (polled w)) w)).
Proof.
  intros H. unfold turn, try_except, bind, poll. now rewrite H.
Qed.

Lemma loop_goes_on fuel w :
  (forall i, (i < fuel)%nat -> exists message_pack, polls w (polled w + i) = Ok message_pack) ->
  loop dumps topic_name fuel w
  = (Ok None,
     set_journal (journal w ++ lines_of dumps topic_name (polls w) (polled w) fuel)
       (set_polled (polled w + fuel) w)).
Proof.
  revert w. induction fuel as [|fuel IH]; intros w H.
  - unfold lines_of. simpl. rewrite app_nil_r, Nat.add_0_r.
    now destruct w.
  - destruct (H 0%nat) as [message_pack H0]; [lia|]. rewrite Nat.add_0_r in H0.
    cbn [loop]. unfold bind at 1. rewrite (turn_polled _ _ H0).
    rewrite IH.
    + unfold lines_of. cbn [polls polled journal set_journal set_polled polled_packs].
      rewrite H0. cbn [map List.concat]. rewrite <- app_assoc.
      now rewrite <- Nat.add_succ_comm.
    + intros i Hi. cbn [polls polled set_journal set_polled].
      rewrite Nat.add_succ_comm. apply H. lia.
Qed.

Lemma loop_leaves k fuel w e :
  (forall i, (i < k)%nat -> exists message_pack, polls w (polled w + i) = Ok message_pack) ->
  polls w (polled w + k) = Raise e ->
  (k < fuel)%nat ->
  loop dumps topic_name fuel w
  = (Ok (Some tt),
     set_journal (journal w ++ lines_of dumps topic_name (polls w) (polled w) k ++ [failure_line topic_name e])
       (set_polled (polled w + S k) w)).
Proof.
  revert w fuel. induction k as [|k IH]; intros w fuel H He Hf;
    (destruct fuel as [|fuel]; [lia|]).
  - rewrite Nat.add_0_r in He. cbn [loop]. unfold bind at 1.
    rewrite (turn_failed _ _ He). unfold ret, lines_of. simpl.
    now rewrite Nat.add_1_r.
  - destruct (H 0%nat) as [message_pack H0]; [lia|]. rewrite Nat.add_0_r in H0.
    cbn [loop]. unfold bind at 1. rewrite (turn_polled _ _ H0).
    rewrite (IH _ fuel).
    + unfold lines_of. cbn [polls polled journal set_journal set_polled polled_packs].
      rewrite H0. cbn [map List.concat]. rewrite <- !app_assoc.
      replace (S (polled w) + S k)%nat with (polled w + S (S k))%nat by lia.
      reflexivity.
    + intros i Hi. cbn [polls polled set_journal set_polled].
      rewrite Nat.add_succ_comm. apply H. lia.
    + cbn [polls polled set_journal set_polled].
      now rewrite Nat.add_succ_comm.
    + lia.
Qed.

(** X22.  A consumer leaves its loop at the first poll that raises,
    and not before.  If the consumer could be built, the first [k]
    polls return and the next one raises, then with room for more than
    [k] turns [consume_topic] ends; it has polled [k + 1] times and
    logged, in this order: that it started, one line for every message
    of every pack it got, and the error. *)
Theorem consume_topic_leaves k fuel w e :
  connect w = Ok tt ->
  (forall i, (i < k)%nat -> exists message_pack, polls w (polled w + i) = Ok message_pack) ->
  polls w (polled w + k) = Raise e ->
  (k < fuel)%nat ->
  exists w',
    consume_topic dumps topic_name fuel w = (Ok (Some tt), w') /\
    polled w' = (polled w + S k)%nat /\
    journal w' =
      (journal w
       ++ [(INFO, ("Consumer for " ++ topic_name ++ " started, waiting for messages...")%string)]
       ++ List.concat (map (pack_lines dumps topic_name)
                         (polled_packs (polls w) (polled w) k))
       ++ [(ERROR, ("Error consuming from " ++ topic_name ++ ": " ++ exc_str e)%string)])%list.
Proof.
  intros Hc H He Hf. unfold consume_topic, bind, KafkaConsumer, info.
  rewrite Hc. rewrite (loop_leaves k fuel _ e); [| exact H | exact He | exact Hf].
  eexists. split; [reflexivity|]. split; [reflexivity|].
  cbn. now rewrite <- app_assoc.
Qed.

(** X23.  As long as the polls return, the loop goes on: if the
    consumer could be built and the first [fuel] polls return, then
    after [fuel] turns the loop has not been left; it has polled
    [fuel] times and logged one line for every message it got, and no
    error. *)
Theorem consume_topic_goes_on fuel w :
  connect w = Ok tt ->
  (forall i, (i < fuel)%nat -> exists message_pack, polls w (polled w + i) = Ok message_pack) ->
  exists w',
    consume_topic dumps topic_name fuel w = (Ok None, w') /\
    polled w' = (polled w + fuel)%nat /\
    journal w' =
      (journal w
       ++ [(INFO, ("Consumer for " ++ topic_name ++ " started, waiting for messages...")%string)]
       ++ List.concat (map (pack_lines dumps topic_name)
                         (polled_packs (polls w) (polled w) fuel)))%list.
Proof.
  intros Hc H. unfold consume_topic, bind, KafkaConsumer, info.
  rewrite Hc. rewrite (loop_goes_on fuel); [| exact H].
  eexists. split; [reflexivity|]. split; [reflexivity|].
  cbn. now rewrite <- app_assoc.
Qed.

End Loop.

Lemma consume_topic_leaves_witness :
  exists w',
    consume_topic MoreSamples.dumps_int "movie-events" 5 MoreSamples.consumer_world
    = (Ok (Some tt), w') /\
    polled w' = 3%nat /\
    journal w'
    = [(INFO, "Consumer for movie-events started, waiting for messages...");
       (INFO, "[movie-events] Received event: 1");
       (INFO, "[movie-events] Received event: 2");
       (ERROR, "Error consuming from movie-events: Connection closed")].
Proof.
  destruct (consume_topic_leaves MoreSamples.dumps_int "movie-events" 2 5
              MoreSamples.consumer_world (Exc KafkaError "Connection closed") eq_refl)
    as (w' & Hrun & Hp & Hj).
  - intros [|[|i]] Hi; [eexists; reflexivity | eexists; reflexivity | lia].
  - reflexivity.
  - lia.
  - exists w'. split; [exact Hrun|]. split; [exact Hp|]. rewrite Hj. reflexivity.
Defined.

Lemma consume_topic_goes_on_witness :
  exists w',
    consume_topic MoreSamples.dumps_int "movie-events" 2 MoreSamples.consumer_world
    = (Ok None, w') /\
    List.length (journal w') = 3%nat.
Proof.
  destruct (consume_topic_goes_on MoreSamples.dumps_int "movie-events" 2
              MoreSamples.consumer_world eq_refl)
    as (w' & Hrun & _ & Hj).
  - intros [|[|i]] Hi; [eexists; reflexivity | eexists; reflexivity | lia].
  - exists w'. split; [exact Hrun|]. rewrite Hj. reflexivity.
Defined.

End Consumers.
